(** * A shallow embedding of the ORM's query builder, repository,
      connection wrapper and column decorator

    The TypeScript sources embedded here are
    - [src/orm/queryBuilder/pg/index.ts]  (class [PgQueryBuilder]),
    - [src/orm/repository/pg/index.ts]    (class [PgRepository]),
    - [src/orm/connection/pg/index.ts]    (classes [PgConnection], [PgTransaction]),
    - [src/orm/decorators/index.ts]       (decorator [Column]).

    Builders are JavaScript objects: they live in a heap and are handled by
    reference, so that "the receiver is left unchanged" is a statement about
    the heap and not a consequence of the embedding.  Exceptions, the heap,
    the console and the state of the external [pg] driver are threaded by a
    small state-and-exception monad. *)

From Stdlib Require Import ZArith Ascii String Decimal DecimalString.
From stdpp Require Import base list strings.

Local Open Scope string_scope.
Local Open Scope list_scope.

(** ** JavaScript data *)

Module JS.

(** The values that travel through the builder as column values and
statement parameters.  Numbers are restricted to integers. *)
Inductive value : Type :=
| Undefined
| Null
| Bool (b : bool)
| Num (n : Z)
| Str (s : string).

(** [value === undefined] *)
Definition is_undefined (v : value) : bool :=
  match v with Undefined => true | _ => false end.

(** [typeof v] *)
Definition typeof (v : value) : string :=
  match v with
  | Undefined => "undefined"
  | Null => "object"
  | Bool _ => "boolean"
  | Num _ => "number"
  | Str _ => "string"
  end.

(** ToBoolean, as used by the conditional operator. *)
Definition truthy (v : value) : bool :=
  match v with
  | Undefined | Null => false
  | Bool b => b
  | Num n => negb (n =? 0)%Z
  | Str s => negb (String.eqb s EmptyString)
  end.

(** A plain object: its own enumerable string-keyed properties in the
order [Object.keys] reports them. *)
Definition object : Type := list (string * value).

(** [Object.keys(o)] *)
Definition keys (o : object) : list string := map fst o.

(** [o[k]]: the property's value, [undefined] when [o] has no such
property.  Properties inherited from [Object.prototype] are not modelled:
this is [o[k]] for the reads that [own_read] describes. *)
Fixpoint get (o : object) (k : string) : value :=
  match o with
  | [] => Undefined
  | (k', v) :: o' => if String.eqb k' k then v else get o' k
  end.

(** The double-quote character, as a one-character string. *)
Definition dq : string := String (ascii_of_nat 34) EmptyString.

(** The template [`"${s}"`]. *)
Definition quoted (s : string) : string := dq +:+ s +:+ dq.

(** [Array.prototype.join] on an array of strings. *)
Fixpoint join (sep : string) (l : list string) : string :=
  match l with
  | [] => EmptyString
  | [x] => x
  | x :: l' => x +:+ sep +:+ join sep l'
  end.

(** Interpolation of an array length ([`${a.length}`]). *)
Definition string_of_nat (n : nat) : string :=
  NilEmpty.string_of_uint (Nat.to_uint n).

(** Interpolation of an integer-valued number ([`${count}`]): the text
JavaScript prints for a [safe_integer]; larger numbers are not held
exactly, and are printed in exponent notation from [10^21] on. *)
Definition string_of_Z (z : Z) : string :=
  NilEmpty.string_of_int (Z.to_int z).

(** Interpolation [`${x}`] of a possibly undefined string. *)
Definition string_of_optional (x : option string) : string :=
  match x with Some s => s | None => "undefined" end.

(** [String.prototype.toUpperCase] on ASCII text. *)
Definition upper_ascii (c : ascii) : ascii :=
  let n := nat_of_ascii c in
  if (97 <=? n)%nat && (n <=? 122)%nat then ascii_of_nat (n - 32) else c.

Fixpoint toUpperCase (s : string) : string :=
  match s with
  | EmptyString => EmptyString
  | String c s' => String (upper_ascii c) (toUpperCase s')
  end.

(** The replacement-template expansion of [String.prototype.replace]
(GetSubstitution) for a pattern without capture groups: [$$] is a
dollar sign, [$&] the matched text, [$`] the text before the match,
[$'] the text after it; every other character stands for itself. *)
Fixpoint GetSubstitution (matched before after template : string) : string :=
  match template with
  | EmptyString => EmptyString
  | String c t =>
      if Ascii.eqb c "$" then
        match t with
        | String d t' =>
            if Ascii.eqb d "$" then String "$" (GetSubstitution matched before after t')
            else if Ascii.eqb d "&" then matched +:+ GetSubstitution matched before after t'
            else if Ascii.eqb d "`" then before +:+ GetSubstitution matched before after t'
            else if Ascii.eqb d "'" then after +:+ GetSubstitution matched before after t'
            else String c (GetSubstitution matched before after t)
        | EmptyString => String c EmptyString
        end
      else String c (GetSubstitution matched before after t)
  end.

(** [s.replace(/t\./g, template)]: every occurrence of the two
characters [t.] , scanning left to right, is replaced by the expansion
of [template].  [before] is the part of the subject already scanned. *)
Fixpoint replace_t_dot_from (template before s : string) : string :=
  match s with
  | EmptyString => EmptyString
  | String a s' =>
      match s' with
      | String b s'' =>
          if Ascii.eqb a "t" && Ascii.eqb b "." then
            GetSubstitution "t." before s'' template
              +:+ replace_t_dot_from template (before +:+ "t.") s''
          else String a (replace_t_dot_from template (before +:+ String a EmptyString) s')
      | EmptyString => String a EmptyString
      end
  end.

Definition replace_t_dot (s template : string) : string :=
  replace_t_dot_from template EmptyString s.

(** [s.replace(/u\./g, template)] *)
Fixpoint replace_u_dot_from (template before s : string) : string :=
  match s with
  | EmptyString => EmptyString
  | String a s' =>
      match s' with
      | String b s'' =>
          if Ascii.eqb a "u" && Ascii.eqb b "." then
            GetSubstitution "u." before s'' template
              +:+ replace_u_dot_from template (before +:+ "u.") s''
          else String a (replace_u_dot_from template (before +:+ String a EmptyString) s')
      | EmptyString => String a EmptyString
      end
  end.

Definition replace_u_dot (s template : string) : string :=
  replace_u_dot_from template EmptyString s.

(** Whether the first character of [s] is a space. *)
Definition starts_with_space (s : string) : bool :=
  match s with
  | String c _ => Ascii.eqb c " "
  | EmptyString => false
  end.

(** [s.includes(needle)] *)
Fixpoint includes (needle s : string) : bool :=
  String.prefix needle s
  || match s with
     | EmptyString => false
     | String _ s' => includes needle s'
     end.

(** A property slot of an object literal: [Absent] when the object has
no such own property, [Present None] when it has it with the value
[undefined]. *)
Inductive field (A : Type) : Type :=
| Absent
| Present (v : option A).
Arguments Absent {A}.
Arguments Present {A} v.

(** [o.p] *)
Definition read {A} (f : field A) : option A :=
  match f with Absent => None | Present v => v end.

(** The slot [p] of [{...a, ...b}]. *)
Definition spread {A} (a b : field A) : field A :=
  match b with Absent => a | Present _ => b end.

(** A function value, as far as the builder looks at it: the source text
that [Function.prototype.toString] returns. *)
Record function : Type := mkFunction { toString : string }.

(** The value of a decimal digit. *)
Definition digit (c : ascii) : option N :=
  let n := N_of_ascii c in
  if (48 <=? n)%N && (n <=? 57)%N then Some (n - 48)%N else None.

Fixpoint digits (acc : N) (s : string) : option N :=
  match s with
  | EmptyString => Some acc
  | String c s' =>
      match digit c with
      | Some d => digits (acc * 10 + d)%N s'
      | None => None
      end
  end.

(** The number a property key stands for when it is an array index: a
decimal numeral without sign or leading zero, at most [2^32 - 2]. *)
Definition array_index (k : string) : option N :=
  match k with
  | EmptyString => None
  | String c rest =>
      if Ascii.eqb c "0" then
        match rest with EmptyString => Some 0%N | _ => None end
      else
        match digits 0 k with
        | Some n => if (n <=? 4294967294)%N then Some n else None
        | None => None
        end
  end.

(** [k in o], for own properties. *)
Definition has (o : object) (k : string) : bool :=
  existsb (String.eqb k) (keys o).

(** The value of an existing property is replaced where it stands. *)
Fixpoint replace_value (o : object) (k : string) (v : value) : object :=
  match o with
  | [] => []
  | (k', v') :: o' =>
      if String.eqb k' k then (k', v) :: o' else (k', v') :: replace_value o' k v
  end.

(** A new array index goes before the first larger index and before the
first key that is not an index. *)
Fixpoint insert_index (n : N) (k : string) (v : value) (o : object) : object :=
  match o with
  | [] => [(k, v)]
  | (k', v') :: o' =>
      match array_index k' with
      | Some n' => if (n <? n')%N then (k, v) :: o else (k', v') :: insert_index n k v o'
      | None => (k, v) :: o
      end
  end.

(** [{...o, [k]: v}]: the properties of [o] with [k] set to [v].  An
object lists its array indices first, in ascending order, then its other
keys in the order they were created. *)
Definition set (o : object) (k : string) (v : value) : object :=
  if has o k then replace_value o k v
  else
    match array_index k with
    | Some n => insert_index n k v o
    | None => o ++ [(k, v)]
    end.

(** [a.indexOf(x)] on an array of class identities. *)
Fixpoint indexOf_from (i : Z) (a : list nat) (x : nat) : Z :=
  match a with
  | [] => (-1)%Z
  | y :: a' => if Nat.eqb y x then i else indexOf_from (i + 1)%Z a' x
  end.

Definition indexOf (a : list nat) (x : nat) : Z := indexOf_from 0 a x.

(** The names of the members of [Object.prototype], which every plain
object inherits. *)
Definition Object_prototype : list string :=
  [ "constructor"; "hasOwnProperty"; "isPrototypeOf"; "propertyIsEnumerable";
    "toLocaleString"; "toString"; "valueOf"; "__proto__";
    "__defineGetter__"; "__defineSetter__"; "__lookupGetter__"; "__lookupSetter__" ].

Definition inherited (k : string) : bool :=
  existsb (String.eqb k) Object_prototype.

(** [o[k]] on a plain object, through the prototype chain: the own
property when there is one; otherwise the member of [Object.prototype] of
that name, which is a function or an object and not a [value] ([None]);
otherwise [undefined]. *)
Definition get_through_prototype (o : object) (k : string) : option value :=
  if has o k then Some (get o k)
  else if inherited k then None
  else Some Undefined.

(** The read [o[k]] does not go to [Object.prototype]: [o] has the
property, or [Object.prototype] has no member of that name.  [get] is the
value of such reads. *)
Definition own_read (o : object) (k : string) : bool :=
  has o k || negb (inherited k).

(** The integers a number holds exactly and prints in full:
[Number.isSafeInteger]. *)
Definition safe_integer (z : Z) : bool :=
  (-9007199254740991 <=? z)%Z && (z <=? 9007199254740991)%Z.

(** [a[name]] on an array, for a property name that is not an index. *)
Definition array_member {A} (a : list A) (name : string) : value :=
  if String.eqb name "length" then Num (Z.of_nat (length a)) else Undefined.

End JS.

(** ** Exceptions and state *)

Inductive exn : Type :=
| TypeError (msg : string)
| Error (msg : string)
| DriverError (msg : string).

(** The result of running a piece of code: it returns, it throws (an
[async] function's rejection is a throw at the [await]), or it is
[Stuck], which is not a JavaScript outcome: it marks a receiver that is
not an allocated builder. *)
Inductive outcome (A : Type) : Type :=
| Ok (a : A)
| Throw (e : exn)
| Stuck.
Arguments Ok {A} a.
Arguments Throw {A} e.
Arguments Stuck {A}.

Definition M (S A : Type) : Type := S -> outcome A * S.

Definition ret {S A} (a : A) : M S A := fun s => (Ok a, s).

Definition bind {S A B} (m : M S A) (k : A -> M S B) : M S B :=
  fun s =>
    match m s with
    | (Ok a, s') => k a s'
    | (Throw e, s') => (Throw e, s')
    | (Stuck, s') => (Stuck, s')
    end.

Definition throw {S A} (e : exn) : M S A := fun s => (Throw e, s).

Definition stuck {S A} : M S A := fun s => (Stuck, s).

(** [try { m } catch (error) { h error }] *)
Definition try_catch {S A} (m : M S A) (h : exn -> M S A) : M S A :=
  fun s =>
    match m s with
    | (Throw e, s') => h e s'
    | r => r
    end.

Declare Scope js_scope.
Delimit Scope js_scope with js.
Notation "x <- m ;; k" := (bind m (fun x => k))
  (at level 100, m at next level, right associativity) : js_scope.
Notation "m ;;; k" := (bind m (fun _ => k))
  (at level 100, right associativity) : js_scope.
Local Open Scope js_scope.

(** [a.map(f)] for a callback with effects. *)
Fixpoint mapM {S A B} (f : A -> M S B) (l : list A) : M S (list B) :=
  match l with
  | [] => ret []
  | x :: l' => y <- f x ;; ys <- mapM f l' ;; ret (y :: ys)
  end.

(** [for (let i = lo; i < lo + n; i++) body(i)] *)
Fixpoint forM_ {S} (l : list nat) (body : nat -> M S unit) : M S unit :=
  match l with
  | [] => ret tt
  | i :: l' => body i ;;; forM_ l' body
  end.

(** [Object.keys(x)], which throws on [undefined]. *)
Definition Object_keys {S} (x : option JS.object) : M S (list string) :=
  match x with
  | Some o => ret (JS.keys o)
  | None => throw (TypeError "Cannot convert undefined or null to object")
  end.

(** [x[k]], which throws when [x] is [undefined]. *)
Definition member {S} (x : option JS.object) (k : string) : M S JS.value :=
  match x with
  | Some o => ret (JS.get o k)
  | None => throw (TypeError "Cannot read properties of undefined")
  end.

(** ** The connection interface ([src/orm/connection/index.ts]) *)

(** What the driver resolves a query with: the row sequence and the
affected-row count. *)
Record QueryResult : Type := mkQueryResult {
  rows : list JS.object;
  rowCount : JS.value
}.

Section Connections.

(** The state of the external [pg] driver and the identity of one of its
client objects. *)
Context {Session Handle : Type}.

Inductive Connection : Type := mkConnection {
  query : string -> option (list JS.value) -> M Session QueryResult;
  beginTransaction : M Session Transaction;
  close : M Session unit
}
with Transaction : Type := mkTransaction {
  asConnection : Connection;
  commit : M Session unit;
  rollback : M Session unit
}.

(** The three methods of [pg.Client] the wrapper calls. *)
Variable client_connect : Handle -> M Session unit.
Variable client_query : Handle -> string -> option (list JS.value) -> M Session QueryResult.
Variable client_end : Handle -> M Session unit.

(** *** [PgConnection] and [PgTransaction] ([src/orm/connection/pg/index.ts]) *)

Record PgConnection : Type := mkPgConnection { client : Handle }.

Record PgTransaction : Type := mkPgTransaction { connection : PgConnection }.

Definition PgConnection_query (this : PgConnection) (sql : string)
    (params : option (list JS.value)) : M Session QueryResult :=
  try_catch
    (client_connect (client this) ;;;
     result <- client_query (client this) sql params ;;
     ret result)
    (fun error => throw error).

Definition PgConnection_beginTransaction (this : PgConnection) : M Session PgTransaction :=
  try_catch
    (client_query (client this) "BEGIN" None ;;;
     ret (mkPgTransaction this))
    (fun error => throw error).

Definition PgConnection_close (this : PgConnection) : M Session unit :=
  try_catch (client_end (client this)) (fun error => throw error).

Definition PgTransaction_query (this : PgTransaction) (sql : string)
    (params : option (list JS.value)) : M Session QueryResult :=
  PgConnection_query (connection this) sql params.

Definition PgTransaction_beginTransaction (this : PgTransaction) : M Session Transaction :=
  throw (Error "Cannot begin a nested transaction").

Definition PgTransaction_commit (this : PgTransaction) : M Session unit :=
  try_catch
    (PgConnection_query (connection this) "COMMIT" None ;;; ret tt)
    (fun error => throw error).

Definition PgTransaction_rollback (this : PgTransaction) : M Session unit :=
  try_catch
    (PgConnection_query (connection this) "ROLLBACK" None ;;; ret tt)
    (fun error => throw error).

Definition PgTransaction_close (this : PgTransaction) : M Session unit :=
  throw (Error "Cannot close a transaction").

(** The two classes seen through the interfaces they implement. *)
Definition PgTransaction_iface (this : PgTransaction) : Transaction :=
  {| asConnection :=
       {| query := PgTransaction_query this;
          beginTransaction := PgTransaction_beginTransaction this;
          close := PgTransaction_close this |};
     commit := PgTransaction_commit this;
     rollback := PgTransaction_rollback this |}.

Definition PgConnection_iface (this : PgConnection) : Connection :=
  {| query := PgConnection_query this;
     beginTransaction :=
       tx <- PgConnection_beginTransaction this ;; ret (PgTransaction_iface tx);
     close := PgConnection_close this |}.

End Connections.

(** ** Entities ([src/orm/entity/index.ts]) *)

Record Entity : Type := mkEntity {
  tableName : JS.field string;
  columns : JS.field JS.object;
  relations : JS.field JS.object
}.

(** [{...a, ...b}] on two entity objects. *)
Definition spread_entity (a b : Entity) : Entity :=
  {| tableName := JS.spread (tableName a) (tableName b);
     columns := JS.spread (columns a) (columns b);
     relations := JS.spread (relations a) (relations b) |}.

(** [`${e.tableName}`] *)
Definition table_text (e : Entity) : string :=
  JS.string_of_optional (JS.read (tableName e)).

(** ** The query builder ([src/orm/queryBuilder/pg/index.ts]) *)

Module PgQueryBuilder.
Section Builder.

Context {Session : Type}.

(** A [PgQueryBuilder] object.  [params] is private and only ever assigned
by the constructor, to a fresh array: an array belongs to one builder, and
its contents are kept in the builder object. *)
Record builder : Type := mkBuilder {
  connection : @Connection Session;
  entity : Entity;
  sql : string;
  params : list JS.value
}.

(** A reference to a builder. *)
Definition ref : Type := nat.

(** What [console.log({ where: qb })] prints: the builder as it is then. *)
Inductive console_entry : Type :=
| LogWhere (qb : builder).

Record World : Type := mkWorld {
  heap : list builder;
  session : Session;
  console : list console_entry
}.

Definition alloc (b : builder) : M World ref :=
  fun w => (Ok (length (heap w)), mkWorld (heap w ++ [b]) (session w) (console w)).

Definition load (l : ref) : M World builder :=
  fun w => match heap w !! l with
           | Some b => (Ok b, w)
           | None => (Stuck, w)
           end.

Definition store (l : ref) (b : builder) : M World unit :=
  fun w => match heap w !! l with
           | Some _ => (Ok tt, mkWorld (<[l := b]> (heap w)) (session w) (console w))
           | None => (Stuck, w)
           end.

(** [new PgQueryBuilder(connection, entity)] *)
Definition new (connection : Connection) (entity : Entity) : M World ref :=
  alloc (mkBuilder connection entity EmptyString []).

(** [o.connection], [o.entity], [o.sql], [o.params] *)
Definition get_connection (o : ref) : M World Connection :=
  b <- load o ;; ret (connection b).
Definition get_entity (o : ref) : M World Entity :=
  b <- load o ;; ret (entity b).
Definition get_sql (o : ref) : M World string :=
  b <- load o ;; ret (sql b).
Definition get_params (o : ref) : M World (list JS.value) :=
  b <- load o ;; ret (params b).

(** [o.sql = s] *)
Definition set_sql (o : ref) (s : string) : M World unit :=
  b <- load o ;; store o (mkBuilder (connection b) (entity b) s (params b)).

(** [o.sql += s] *)
Definition append_sql (o : ref) (s : string) : M World unit :=
  old <- get_sql o ;; set_sql o (old +:+ s).

(** [o.params.push(v)] *)
Definition push_param (o : ref) (v : JS.value) : M World unit :=
  b <- load o ;; store o (mkBuilder (connection b) (entity b) (sql b) (params b ++ [v])).

(** [console.log({ where: o })] *)
Definition console_log_where (o : ref) : M World unit :=
  b <- load o ;;
  fun w => (Ok tt, mkWorld (heap w) (session w) (console w ++ [LogWhere b])).

(** A call into the connection: it runs on the driver's state. *)
Definition on_session {A} (m : M Session A) : M World A :=
  fun w => let (r, s') := m (session w) in (r, mkWorld (heap w) s' (console w)).

Definition select (this : ref) (columns : list string) : M World ref :=
  c <- get_connection this ;;
  e <- get_entity this ;;
  qb <- new c e ;;
  e <- get_entity this ;;
  set_sql qb ("SELECT " +:+ JS.join ", " (map JS.quoted columns)
              +:+ " FROM " +:+ JS.quoted (table_text e)) ;;;
  ret qb.

(** The callback of [columns.map] in [insert]. *)
Definition insert_value (qb : ref) (row : option JS.object) (column : string) : M World string :=
  value <- member row column ;;
  if JS.is_undefined value then ret "NULL"
  else
    push_param qb value ;;;
    ps <- get_params qb ;;
    ret ("$" +:+ JS.string_of_nat (length ps)).

(** The body of the loop over the rows in [insert]. *)
Definition insert_row (qb : ref) (columns : list string) (rows : list JS.object)
    (i : nat) : M World unit :=
  let row := rows !! i in
  values <- mapM (insert_value qb row) columns ;;
  append_sql qb ("(" +:+ JS.join ", " values +:+ ")") ;;;
  if (i <? length rows - 1)%nat then append_sql qb ", " else ret tt.

Definition insert (this : ref) (rows : list JS.object) : M World ref :=
  c <- get_connection this ;;
  e <- get_entity this ;;
  qb <- new c e ;;
  columns <- Object_keys (rows !! 0%nat) ;;
  e <- get_entity this ;;
  set_sql qb ("INSERT INTO " +:+ JS.quoted (table_text e) +:+ " ("
              +:+ JS.join ", " (map JS.quoted columns) +:+ ") VALUES") ;;;
  forM_ (seq 0 (length rows)) (insert_row qb columns rows) ;;;
  ret qb.

(** The body of the loop over the keys in [update]. *)
Definition update_key (qb : ref) (columns : JS.object) (keys : list string)
    (i : nat) : M World unit :=
  let key := JS.string_of_optional (keys !! i) in
  let value := JS.get columns key in
  append_sql qb (" " +:+ JS.quoted key +:+ " =") ;;;
  (if JS.is_undefined value then append_sql qb " NULL"
   else
     push_param qb value ;;;
     ps <- get_params qb ;;
     append_sql qb (" $" +:+ JS.string_of_nat (length ps))) ;;;
  if (i <? length keys - 1)%nat then append_sql qb ", " else ret tt.

Definition update (this : ref) (columns : JS.object) : M World ref :=
  c <- get_connection this ;;
  e <- get_entity this ;;
  qb <- new c e ;;
  e <- get_entity this ;;
  set_sql qb ("UPDATE " +:+ JS.quoted (table_text e) +:+ " SET") ;;;
  let keys := JS.keys columns in
  forM_ (seq 0 (length keys)) (update_key qb columns keys) ;;;
  ret qb.

Definition delete (this : ref) : M World ref :=
  c <- get_connection this ;;
  e <- get_entity this ;;
  qb <- new c e ;;
  e <- get_entity this ;;
  set_sql qb ("DELETE FROM " +:+ JS.quoted (table_text e)) ;;;
  ret qb.

(** The join condition: the printed source of [on] with [t.] and then
[u.] replaced. *)
Definition join_condition (on : JS.function) (left right : Entity) : string :=
  JS.replace_u_dot
    (JS.replace_t_dot (JS.toString on) (JS.quoted (table_text left) +:+ "."))
    (JS.quoted (table_text right) +:+ ".").

Definition join_with (keyword : string) (this : ref) (entity : Entity) (on : JS.function) : M World ref :=
  c <- get_connection this ;;
  e <- get_entity this ;;
  qb <- new c (spread_entity e entity) ;;
  e <- get_entity this ;;
  set_sql qb ("SELECT * FROM " +:+ JS.quoted (table_text e) +:+ keyword
              +:+ JS.quoted (table_text entity) +:+ " ON") ;;;
  e <- get_entity this ;;
  let condition := join_condition on e entity in
  append_sql qb condition ;;;
  ret qb.

Definition innerJoin : ref -> Entity -> JS.function -> M World ref :=
  join_with " INNER JOIN ".

Definition leftJoin : ref -> Entity -> JS.function -> M World ref :=
  join_with " LEFT JOIN ".

(** The where condition: the printed source of the predicate with [t.]
replaced by the quoted table name and a dot. *)
Definition where_condition (condition1 : JS.function) (e : Entity) : string :=
  JS.replace_t_dot (JS.toString condition1) (JS.quoted (table_text e) +:+ ".").

Definition where_ (this : ref) (condition1 : JS.function) : M World ref :=
  c <- get_connection this ;;
  e <- get_entity this ;;
  qb <- new c e ;;
  s <- get_sql this ;;
  set_sql qb (s +:+ " WHERE") ;;;
  e <- get_entity this ;;
  let condition := where_condition condition1 e in
  append_sql qb condition ;;;
  console_log_where qb ;;;
  ret qb.

(** The type ["asc" | "desc"]. *)
Inductive direction : Type := asc | desc.

Definition direction_text (d : direction) : string :=
  match d with asc => "asc" | desc => "desc" end.

Definition orderBy (this : ref) (column : string) (d : direction) : M World ref :=
  c <- get_connection this ;;
  e <- get_entity this ;;
  qb <- new c e ;;
  s <- get_sql this ;;
  set_sql qb (s +:+ " ORDER BY " +:+ JS.quoted column +:+ " "
              +:+ JS.toUpperCase (direction_text d)) ;;;
  ret qb.

Definition limit (this : ref) (count : Z) : M World ref :=
  c <- get_connection this ;;
  e <- get_entity this ;;
  qb <- new c e ;;
  s <- get_sql this ;;
  set_sql qb (s +:+ " LIMIT " +:+ JS.string_of_Z count) ;;;
  ret qb.

Definition offset (this : ref) (count : Z) : M World ref :=
  c <- get_connection this ;;
  e <- get_entity this ;;
  qb <- new c e ;;
  s <- get_sql this ;;
  set_sql qb (s +:+ " OFFSET " +:+ JS.string_of_Z count) ;;;
  ret qb.

Definition execute (this : ref) : M World (list JS.object) :=
  try_catch
    (c <- get_connection this ;;
     s <- get_sql this ;;
     ps <- get_params this ;;
     result <- on_session (query c s (Some ps)) ;;
     ret (rows result))
    (fun error => throw error).

(** The ten methods that return a builder, with their arguments. *)
Inductive call : Type :=
| Select (columns : list string)
| Insert (rows : list JS.object)
| Update (columns : JS.object)
| Delete
| InnerJoin (other : Entity) (on : JS.function)
| LeftJoin (other : Entity) (on : JS.function)
| Where (condition : JS.function)
| OrderBy (column : string) (d : direction)
| Limit (count : Z)
| Offset (count : Z).

Definition invoke (this : ref) (m : call) : M World ref :=
  match m with
  | Select columns => select this columns
  | Insert rows => insert this rows
  | Update columns => update this columns
  | Delete => delete this
  | InnerJoin other on => innerJoin this other on
  | LeftJoin other on => leftJoin this other on
  | Where condition => where_ this condition
  | OrderBy column d => orderBy this column d
  | Limit count => limit this count
  | Offset count => offset this count
  end.

(** The entity the builder returned by a call is constructed with. *)
Definition entity_of_call (m : call) (e : Entity) : Entity :=
  match m with
  | InnerJoin other _ | LeftJoin other _ => spread_entity e other
  | _ => e
  end.

(** The world [w] after a builder [b] has been allocated in it. *)
Definition returned (w : World) (b : builder) : World :=
  mkWorld (heap w ++ [b]) (session w) (console w).

(** The fields of the builder at a reference, if there is one. *)
Definition sql_at (w : World) (l : ref) : option string := sql <$> heap w !! l.
Definition params_at (w : World) (l : ref) : option (list JS.value) := params <$> heap w !! l.
Definition entity_at (w : World) (l : ref) : option Entity := entity <$> heap w !! l.

(** The same, the builder having been printed by [where]. *)
Definition logged (w : World) (b : builder) : World :=
  mkWorld (heap w ++ [b]) (session w) (console w ++ [LogWhere b]).

End Builder.
End PgQueryBuilder.

(** ** The repository ([src/orm/repository/pg/index.ts]) *)

Module PgRepository.
Section Repository.

Context {Session : Type}.

Local Abbreviation World := (@PgQueryBuilder.World Session).

Record repository : Type := mkRepository {
  connection : @Connection Session;
  entity : Entity
}.

(** [result[0] || null]: rows are objects, hence truthy. *)
Definition first_or_null (result : list JS.object) : option JS.object :=
  head result.

(** The arrow function [(t) => t.id === id] of [findById], as printed. *)
Definition by_id : JS.function :=
  JS.mkFunction "(t) => t.id === id".

Definition findAll (this : repository) : M World (list JS.object) :=
  qb <- PgQueryBuilder.new (connection this) (entity this) ;;
  names <- Object_keys (JS.read (columns (entity this))) ;;
  qb <- PgQueryBuilder.select qb names ;;
  PgQueryBuilder.execute qb.

Definition findById (this : repository) (id : JS.value) : M World (option JS.object) :=
  qb <- PgQueryBuilder.new (connection this) (entity this) ;;
  names <- Object_keys (JS.read (columns (entity this))) ;;
  PgQueryBuilder.select qb names ;;;
  PgQueryBuilder.where_ qb by_id ;;;
  result <- PgQueryBuilder.execute qb ;;
  ret (first_or_null result).

Definition findOne (this : repository) (condition : JS.function) : M World (option JS.object) :=
  qb <- PgQueryBuilder.new (connection this) (entity this) ;;
  names <- Object_keys (JS.read (columns (entity this))) ;;
  PgQueryBuilder.select qb names ;;;
  PgQueryBuilder.where_ qb condition ;;;
  result <- PgQueryBuilder.execute qb ;;
  ret (first_or_null result).

Definition insert (this : repository) (rows : list JS.object) : M World (list JS.object) :=
  qb <- PgQueryBuilder.new (connection this) (entity this) ;;
  qb <- PgQueryBuilder.insert qb rows ;;
  result <- PgQueryBuilder.execute qb ;;
  ret result.

Definition update (this : repository) (columns : JS.object) (condition : JS.function)
    : M World (list JS.object) :=
  qb <- PgQueryBuilder.new (connection this) (entity this) ;;
  PgQueryBuilder.update qb columns ;;;
  PgQueryBuilder.where_ qb condition ;;;
  result <- PgQueryBuilder.execute qb ;;
  ret result.

Definition delete (this : repository) (condition : JS.function) : M World JS.value :=
  qb <- PgQueryBuilder.new (connection this) (entity this) ;;
  PgQueryBuilder.delete qb ;;;
  PgQueryBuilder.where_ qb condition ;;;
  result <- PgQueryBuilder.execute qb ;;
  ret (JS.array_member result "rowCount").

End Repository.
End PgRepository.

(** ** The column decorator ([src/orm/decorators/index.ts]) *)

Module Decorators.

Record ColumnOptions : Type := mkColumnOptions {
  name : option string;
  type : option string
}.

(** The object a property decorator receives: the class it belongs to
([object.constructor]) and the properties it has when the class is
declared. *)
Record decorated : Type := mkDecorated {
  constructor : nat;
  properties : JS.object
}.

Module ColumnMetadataArgs.
Record t : Type := mk {
  target : nat;
  propertyName : string;
  type : string
}.
End ColumnMetadataArgs.

(** [x ?? y] *)
Definition nullish_coalesce (x : option JS.value) (y : JS.value) : JS.value :=
  match x with
  | Some JS.Undefined | Some JS.Null | None => y
  | Some v => v
  end.

(** The expression
[options?.type ?? typeof object[propertyName] == "string" ? "varchar(255)" : "int"].
The conditional operator binds weaker than [??], which binds weaker than
[==]: the condition is [options?.type ?? (typeof ... == "string")]. *)
Definition column_type (options : option ColumnOptions) (object : decorated)
    (propertyName : string) : string :=
  let declared := JS.Str <$> (options ≫= type) in
  let is_string :=
    JS.Bool (String.eqb (JS.typeof (JS.get (properties object) propertyName)) "string") in
  if JS.truthy (nullish_coalesce declared is_string) then "varchar(255)" else "int".

(** [Column(options)(object, propertyName)]: the record is pushed onto
[getMetadataArgsStorage().columns], the state threaded here. *)
Definition Column (options : option ColumnOptions) (object : decorated)
    (propertyName : string) (storage : list ColumnMetadataArgs.t)
    : list ColumnMetadataArgs.t :=
  storage ++
  [ ColumnMetadataArgs.mk
      (constructor object)
      (default propertyName (options ≫= name))
      (column_type options object propertyName) ].

End Decorators.

(** ** What the builder methods compute

The text and the parameters a method leaves in the builder it returns,
written as functions of the receiver and the arguments; the section
on properties shows that the methods compute them. *)

Module Compiled.

(** The placeholder [$n]. *)
Definition placeholder (n : nat) : string := "$" +:+ JS.string_of_nat n.

(** The values of a row that become parameters: those that are not
[undefined], in column order. *)
Fixpoint defined (vs : list JS.value) : list JS.value :=
  match vs with
  | [] => []
  | v :: vs' => if JS.is_undefined v then defined vs' else v :: defined vs'
  end.

(** The text of one value, [n] placeholders having been emitted before. *)
Definition cell (n : nat) (v : JS.value) : string :=
  if JS.is_undefined v then "NULL" else placeholder (S n).

(** The texts of a sequence of values, [n] placeholders having been
emitted before the first. *)
Fixpoint cells (n : nat) (vs : list JS.value) : list string :=
  match vs with
  | [] => []
  | v :: vs' => cell n v :: cells (if JS.is_undefined v then n else S n) vs'
  end.

(** The values of a row in column order. *)
Definition row_values (columns : list string) (row : JS.object) : list JS.value :=
  map (JS.get row) columns.

(** The parenthesised groups of the VALUES list, [n] placeholders having
been emitted before the first row. *)
Fixpoint groups (columns : list string) (n : nat) (rows : list JS.object) : list string :=
  match rows with
  | [] => []
  | row :: rows' =>
      ("(" +:+ JS.join ", " (cells n (row_values columns row)) +:+ ")")
        :: groups columns (n + length (defined (row_values columns row))) rows'
  end.

Definition insert_head (e : Entity) (columns : list string) : string :=
  "INSERT INTO " +:+ JS.quoted (table_text e) +:+ " ("
    +:+ JS.join ", " (map JS.quoted columns) +:+ ") VALUES".

Definition insert_sql (e : Entity) (columns : list string) (rows : list JS.object) : string :=
  insert_head e columns +:+ JS.join ", " (groups columns 0 rows).

Definition insert_params (columns : list string) (rows : list JS.object) : list JS.value :=
  flat_map (fun row => defined (row_values columns row)) rows.

(** The assignments of [update]: key [k] with value [v], [n] placeholders
having been emitted before, [last] telling whether it is the last key. *)
Definition assignment (n : nat) (k : string) (v : JS.value) (last : bool) : string :=
  " " +:+ JS.quoted k +:+ " =" +:+ " " +:+ cell n v +:+ (if last then EmptyString else ", ").

Fixpoint assignments (n : nat) (o : JS.object) (kvs : list string) : string :=
  match kvs with
  | [] => EmptyString
  | k :: kvs' =>
      assignment n k (JS.get o k) (match kvs' with [] => true | _ => false end)
        +:+ assignments (if JS.is_undefined (JS.get o k) then n else S n) o kvs'
  end.

Definition update_sql (e : Entity) (o : JS.object) : string :=
  "UPDATE " +:+ JS.quoted (table_text e) +:+ " SET" +:+ assignments 0 o (JS.keys o).

Definition update_params (o : JS.object) : list JS.value :=
  defined (row_values (JS.keys o) o).

(** *** Placeholder numbering, stated on the row-major value sequence *)

(** All the values of an insert, row after row. *)
Definition grid (columns : list string) (rows : list JS.object) : list JS.value :=
  flat_map (row_values columns) rows.

(** The text standing for position [p] of a value sequence: [NULL] for
an undefined value, otherwise the placeholder whose number is one more
than the number of defined values before [p]. *)
Definition numbered (vs : list JS.value) (p : nat) : string :=
  match vs !! p with
  | Some v =>
      if JS.is_undefined v then "NULL"
      else placeholder (S (length (defined (take p vs))))
  | None => EmptyString
  end.

(** The parenthesised group of the [K] positions from [start] on. *)
Definition group_from (vs : list JS.value) (K start : nat) : string :=
  "(" +:+ JS.join ", " (map (fun c => numbered vs (start + c)) (seq 0 K)) +:+ ")".

(** The VALUES list of [N] rows of [K] columns: one group per row, the
groups joined by a comma and a space. *)
Definition values_list (vs : list JS.value) (N K : nat) : string :=
  JS.join ", " (map (fun r => group_from vs K (r * K)) (seq 0 N)).

(** The same when every value is defined: position [p] is [$(p+1)]. *)
Definition placeholder_group (K r : nat) : string :=
  "(" +:+ JS.join ", " (map (fun c => placeholder (r * K + c + 1)) (seq 0 K)) +:+ ")".

Definition placeholder_grid (N K : nat) : string :=
  JS.join ", " (map (placeholder_group K) (seq 0 N)).

(** The SET list of an update: the assignments one after the other. *)
Definition set_item (vs : list JS.value) (K i : nat) (k : string) : string :=
  " " +:+ JS.quoted k +:+ " = " +:+ numbered vs i
    +:+ (if (i <? K - 1)%nat then ", " else EmptyString).

Definition set_list (o : JS.object) : string :=
  let ks := JS.keys o in
  foldr String.append EmptyString (imap (set_item (row_values ks o) (length ks)) ks).

(** The rows of a batch share the first row's keys and hold no undefined
value. *)
Definition same_keys (a b : JS.object) : bool :=
  forallb (fun k => existsb (String.eqb k) (JS.keys b)) (JS.keys a)
  && forallb (fun k => existsb (String.eqb k) (JS.keys a)) (JS.keys b).

Definition no_undefined (o : JS.object) : bool :=
  forallb (fun kv => negb (JS.is_undefined (snd kv))) o.

Definition uniform (first : JS.object) (rows : list JS.object) : bool :=
  forallb (fun row => same_keys first row && no_undefined row) rows.

(** No read of a column in a row goes to [Object.prototype]. *)
Definition own_reads (columns : list string) (rows : list JS.object) : bool :=
  forallb (fun row => forallb (JS.own_read row) columns) rows.

Definition all_defined (vs : list JS.value) : Prop :=
  Forall (fun v => JS.is_undefined v = false) vs.

Definition select_sql (e : Entity) (columns : list string) : string :=
  "SELECT " +:+ JS.join ", " (map JS.quoted columns)
    +:+ " FROM " +:+ JS.quoted (table_text e).

Definition delete_sql (e : Entity) : string :=
  "DELETE FROM " +:+ JS.quoted (table_text e).

Definition join_sql (keyword : string) (e other : Entity) (on : JS.function) : string :=
  "SELECT * FROM " +:+ JS.quoted (table_text e) +:+ keyword
    +:+ JS.quoted (table_text other) +:+ " ON"
    +:+ PgQueryBuilder.join_condition on e other.

Definition where_sql (s : string) (e : Entity) (condition : JS.function) : string :=
  s +:+ " WHERE" +:+ PgQueryBuilder.where_condition condition e.

Definition orderBy_sql (s column : string) (d : PgQueryBuilder.direction) : string :=
  s +:+ " ORDER BY " +:+ JS.quoted column +:+ " "
    +:+ JS.toUpperCase (PgQueryBuilder.direction_text d).

Definition limit_sql (s : string) (count : Z) : string :=
  s +:+ " LIMIT " +:+ JS.string_of_Z count.

Definition offset_sql (s : string) (count : Z) : string :=
  s +:+ " OFFSET " +:+ JS.string_of_Z count.

End Compiled.

(** ** Concrete inputs

A driver that records the statements it is sent and answers each with the
same result, two entities, and a world with one builder. *)

Module Recorder.

Record sent : Type := mkSent {
  text : string;
  parameters : option (list JS.value)
}.

(** The statements received so far, oldest first. *)
Definition Session : Type := list sent.

(** The answer to every statement: one row, three rows affected. *)
Definition answer : QueryResult :=
  {| rows := [[("id", JS.Num 7)]]; rowCount := JS.Num 3 |}.

Definition client_connect (h : unit) : M Session unit := ret tt.

Definition client_query (h : unit) (sql : string) (params : option (list JS.value))
    : M Session QueryResult :=
  fun s => (Ok answer, s ++ [mkSent sql params]).

Definition client_end (h : unit) : M Session unit := ret tt.

Definition pg : @PgConnection unit := mkPgConnection tt.

Definition connection : @Connection Session :=
  PgConnection_iface client_connect client_query client_end pg.

Definition users : Entity :=
  {| tableName := JS.Present (Some "users");
     columns := JS.Present (Some [("id", JS.Str "int"); ("name", JS.Str "varchar(255)");
                                  ("email", JS.Str "varchar(255)")]);
     relations := JS.Absent |}.

Definition comments : Entity :=
  {| tableName := JS.Present (Some "comments");
     columns := JS.Present (Some [("id", JS.Str "int"); ("content", JS.Str "text");
                                  ("postId", JS.Str "int")]);
     relations := JS.Absent |}.

(** A world holding one builder for [e], with the given text and
parameters. *)
Definition world (e : Entity) (sql : string) (params : list JS.value)
    : @PgQueryBuilder.World Session :=
  PgQueryBuilder.mkWorld [PgQueryBuilder.mkBuilder connection e sql params] [] [].

(** A world with a fresh builder for [users]. *)
Definition users_world : @PgQueryBuilder.World Session :=
  world users EmptyString [].

(** A world whose builder holds the statement of [update({name: "A"})]. *)
Definition updating_world : @PgQueryBuilder.World Session :=
  world users
    ("UPDATE " +:+ JS.quoted "users" +:+ " SET " +:+ JS.quoted "name" +:+ " = $1")
    [JS.Str "A"].

(** A world without any builder. *)
Definition empty_world : @PgQueryBuilder.World Session :=
  PgQueryBuilder.mkWorld [] [] [].

(** The two rows [{name: "A", email: "a@x.com"}] and
[{name: "B", email: undefined}]. *)
Definition two_rows : list JS.object :=
  [ [("name", JS.Str "A"); ("email", JS.Str "a@x.com")];
    [("name", JS.Str "B"); ("email", JS.Undefined)] ].

(** Two rows with the same keys, in different orders, and no undefined
value. *)
Definition full_rows : list JS.object :=
  [ [("name", JS.Str "A"); ("email", JS.Str "a@x.com")];
    [("email", JS.Str "b@x.com"); ("name", JS.Str "B")] ].

(** The transaction object [connection.beginTransaction()] resolves with. *)
Definition transaction : @Transaction Session :=
  PgTransaction_iface client_connect client_query (mkPgTransaction pg).

(** The arrow function [c => c.postId == 5], as printed. *)
Definition postId_is_5 : JS.function := JS.mkFunction "c => c.postId == 5".

(** The arrow function [(t) => t.id === 1], as printed. *)
Definition id_is_1 : JS.function := JS.mkFunction "(t) => t.id === 1".

(** [new PgQueryBuilder(c, e).select("id", "content").where(c => c.postId == 5)
.orderBy("id", "asc").limit(10)] *)
Definition comments_chain {S} (c : @Connection S) (e : Entity)
    : M (@PgQueryBuilder.World S) PgQueryBuilder.ref :=
  qb <- PgQueryBuilder.new c e ;;
  qb <- PgQueryBuilder.select qb ["id"; "content"] ;;
  qb <- PgQueryBuilder.where_ qb postId_is_5 ;;
  qb <- PgQueryBuilder.orderBy qb "id" PgQueryBuilder.asc ;;
  PgQueryBuilder.limit qb 10.

End Recorder.

(** ** The metadata registry (the storage and the builder in
[src/orm/metadata/entity/index.ts], the decorators in
[src/orm/decorators/index.ts]) *)

Module Metadata.

(** A table record.  The target is the identity of the declaring class;
string targets, which nothing in the repository registers, are left out. *)
Record EntityMetadataArgs : Type := mkEntityMetadataArgs {
  target : nat;
  name : option string;
  type : string;
  columns : option (list Decorators.ColumnMetadataArgs.t)
}.

Record MetadataArgsStorage : Type := mkStorage {
  tables : list EntityMetadataArgs;
  stored_columns : list Decorators.ColumnMetadataArgs.t
}.

(** [new MetadataArgsStorage()] *)
Definition empty : MetadataArgsStorage := mkStorage [] [].

(** The argument of [filterByTarget]: one target, or an array of them. *)
Inductive targets : Type :=
| One (t : nat)
| Many (ts : list nat).

(** The callback of [array.filter] in [filterByTarget]:
[Array.isArray(target) ? target.indexOf(table.target) !== -1 : table.target === target]. *)
Definition selected (q : targets) (t : nat) : bool :=
  match q with
  | Many ts => negb (JS.indexOf ts t =? -1)%Z
  | One t' => Nat.eqb t t'
  end.

Definition filterByTarget {T} (target_of : T -> nat) (array : list T) (q : targets) : list T :=
  List.filter (fun table => selected q (target_of table)) array.

Definition filterTables (this : MetadataArgsStorage) (q : targets) : list EntityMetadataArgs :=
  filterByTarget target (tables this) q.

Definition filterColumns (this : MetadataArgsStorage) (t : nat)
    : list Decorators.ColumnMetadataArgs.t :=
  filterByTarget Decorators.ColumnMetadataArgs.target (stored_columns this) (One t).

(** The global scope, as far as the registry uses it: the property
[ormMetadataArgsStorage], undefined until the first access. *)
Definition global : Type := option MetadataArgsStorage.

(** [getMetadataArgsStorage()]: the storage, and the global scope with the
storage in it. *)
Definition getMetadataArgsStorage (g : global) : MetadataArgsStorage * global :=
  match g with
  | Some storage => (storage, g)
  | None => (empty, Some empty)
  end.

(** The decorator [Entity(name)] applied to the class [target]. *)
Definition Entity (name : option string) (target : nat) (g : global) : global :=
  let (storage, _) := getMetadataArgsStorage g in
  Some (mkStorage (tables storage ++ [mkEntityMetadataArgs target name "regular" None])
                  (stored_columns storage)).

(** The decorator [Column(options)] applied to a property. *)
Definition Column (options : option Decorators.ColumnOptions) (object : Decorators.decorated)
    (propertyName : string) (g : global) : global :=
  let (storage, _) := getMetadataArgsStorage g in
  Some (mkStorage (tables storage)
                  (Decorators.Column options object propertyName (stored_columns storage))).

(** [new EntityMetadataBuilder(storage).build(entityClasses)]; an array,
even an empty one, is truthy. *)
Definition build (storage : MetadataArgsStorage) (entityClasses : option (list nat))
    : list EntityMetadataArgs :=
  let allTables :=
    match entityClasses with
    | Some classes => filterTables storage (Many classes)
    | None => tables storage
    end in
  map (fun tableArgs =>
         mkEntityMetadataArgs (target tableArgs) (name tableArgs) (type tableArgs)
           (Some (filterColumns storage (target tableArgs))))
      allTables.

(** Two arrays of classes have the same members. *)
Definition same_classes (ts ts' : list nat) : bool :=
  forallb (fun t => existsb (Nat.eqb t) ts') ts
  && forallb (fun t => existsb (Nat.eqb t) ts) ts'.

(** A declaration made by a decorator. *)
Inductive declaration : Type :=
| DeclareEntity (name : option string) (target : nat)
| DeclareColumn (options : option Decorators.ColumnOptions) (object : Decorators.decorated)
    (propertyName : string).

Definition declare (g : global) (d : declaration) : global :=
  match d with
  | DeclareEntity name target => Entity name target g
  | DeclareColumn options object propertyName => Column options object propertyName g
  end.

(** The table and column records a sequence of declarations pushes. *)
Definition declared_table (d : declaration) : option EntityMetadataArgs :=
  match d with
  | DeclareEntity name target => Some (mkEntityMetadataArgs target name "regular" None)
  | DeclareColumn _ _ _ => None
  end.

Definition declared_column (d : declaration) : option Decorators.ColumnMetadataArgs.t :=
  match d with
  | DeclareEntity _ _ => None
  | DeclareColumn options object propertyName =>
      Some (Decorators.ColumnMetadataArgs.mk
              (Decorators.constructor object)
              (default propertyName (options ≫= Decorators.name))
              (Decorators.column_type options object propertyName))
  end.

End Metadata.

(** ** The data source ([src/orm/dataSource/index.ts]) *)

Module DataSource.

(** [MixedList<T>], and the two values outside it that [mixedListToArray]
lets through. *)
Inductive MixedList (T : Type) : Type :=
| MixedArray (l : list T)
| MixedObject (o : list (string * T))
| MixedUndefined
| MixedNull.
Arguments MixedArray {T} l.
Arguments MixedObject {T} o.
Arguments MixedUndefined {T}.
Arguments MixedNull {T}.

(** [mixedListToArray(list)]: the values under the keys of an array (its
elements) or of an object; [None] stands for the [undefined] or [null]
that is returned as it is, and is falsy. *)
Definition mixedListToArray {T} (list_ : MixedList T) : option (list T) :=
  match list_ with
  | MixedArray l => Some l
  | MixedObject o => Some (map snd o)
  | MixedUndefined | MixedNull => None
  end.

Record BaseDataSourceOptions : Type := mkOptions {
  o_name : string;
  o_type : string;
  o_host : string;
  o_port : Z;
  o_user : string;
  o_password : string;
  o_database : string;
  o_entities : MixedList nat
}.

Section DataSource.

Context {Session Handle : Type}.
Variable client_connect : Handle -> M Session unit.
Variable client_query : Handle -> string -> option (list JS.value) -> M Session QueryResult.
Variable client_end : Handle -> M Session unit.

(** [new pg.Client(options)], given the fields of [ClientOptions]:
database, host, password, port, user. *)
Variable new_Client : string -> string -> string -> Z -> string -> Handle.

Record DataSource : Type := mkDataSource {
  name : string;
  type : string;
  host : string;
  port : Z;
  user : string;
  password : string;
  database : string;
  entitiesMetadatas : list Metadata.EntityMetadataArgs;
  connection : option (@Connection Session)
}.

Definition buildMetadatas (entities : MixedList nat) (g : Metadata.global)
    : list Metadata.EntityMetadataArgs * Metadata.global :=
  let (metadataArgsStorage, g') := Metadata.getMetadataArgsStorage g in
  let allEntities := mixedListToArray entities in
  (Metadata.build metadataArgsStorage allEntities, g').

(** [new DataSource(options)] *)
Definition new (options : BaseDataSourceOptions) (g : Metadata.global)
    : DataSource * Metadata.global :=
  let (metadatas, g') := buildMetadatas (o_entities options) g in
  (mkDataSource (o_name options) (o_type options) (o_host options) (o_port options)
     (o_user options) (o_password options) (o_database options) metadatas None,
   g').

(** [this.initialize()] *)
Definition initialize (this : DataSource) : DataSource :=
  if String.eqb (type this) "postgres" then
    mkDataSource (name this) (type this) (host this) (port this) (user this)
      (password this) (database this) (entitiesMetadatas this)
      (Some (PgConnection_iface client_connect client_query client_end
               (mkPgConnection
                  (new_Client (database this) (host this) (password this) (port this)
                     (user this)))))
  else this.

(** The callback of [reduce] in [getRepository]:
[(acc, curr) => ({ ...acc, [curr.propertyName]: curr.type })]. *)
Definition add_column (acc : JS.object) (curr : Decorators.ColumnMetadataArgs.t) : JS.object :=
  JS.set acc (Decorators.ColumnMetadataArgs.propertyName curr)
    (JS.Str (Decorators.ColumnMetadataArgs.type curr)).

Definition columns_object (cs : list Decorators.ColumnMetadataArgs.t) : JS.object :=
  fold_left add_column cs [].

(** The type of the last record of [cs] for the property [n], if any. *)
Definition last_type (cs : list Decorators.ColumnMetadataArgs.t) (n : string) : option string :=
  fold_left
    (fun found c =>
       if String.eqb (Decorators.ColumnMetadataArgs.propertyName c) n
       then Some (Decorators.ColumnMetadataArgs.type c) else found)
    cs None.

(** The entity object [getRepository] builds for [target]. *)
Definition repository_entity (this : DataSource) (target : nat) : Entity :=
  let test := List.find (fun metadata => Nat.eqb (Metadata.target metadata) target)
                (entitiesMetadatas this) in
  {| tableName := JS.Present (test ≫= Metadata.name);
     columns := JS.Present (columns_object <$> (test ≫= Metadata.columns));
     relations := JS.Absent |}.

(** [this.getRepository(target)]: the arguments [PgRepository] is
constructed with.  The connection is undefined until [initialize] has
stored one. *)
Definition getRepository (this : DataSource) (target : nat)
    : option (@Connection Session) * Entity :=
  (connection this, repository_entity this target).

End DataSource.

(** Whether [buildMetadatas] asks for the tables of a class. *)
Definition listed (entities : MixedList nat) (target : nat) : bool :=
  match mixedListToArray entities with
  | Some classes => existsb (Nat.eqb target) classes
  | None => true
  end.

End DataSource.

(** ** More concrete inputs *)

Module Sample.

(** A repository of [users] on the recording driver. *)
Definition users_repository : @PgRepository.repository Recorder.Session :=
  PgRepository.mkRepository Recorder.connection Recorder.users.

(** An entity whose [columns] is undefined, and a repository of it. *)
Definition bare : Entity :=
  mkEntity (JS.Present (Some "bare")) (JS.Present None) JS.Absent.

Definition bare_repository : @PgRepository.repository Recorder.Session :=
  PgRepository.mkRepository Recorder.connection bare.

(** The declarations of a class [Comment] (class 1), registered as table
[comments] with the columns [id], [content] and [postId], and of a class
(class 2) registered without a table name. *)
Definition declarations : list Metadata.declaration :=
  [ Metadata.DeclareEntity (Some "comments") 1;
    Metadata.DeclareColumn (Some (Decorators.mkColumnOptions (Some "id") (Some "int")))
      (Decorators.mkDecorated 1 []) "id";
    Metadata.DeclareColumn (Some (Decorators.mkColumnOptions (Some "content") (Some "string")))
      (Decorators.mkDecorated 1 []) "content";
    Metadata.DeclareColumn (Some (Decorators.mkColumnOptions (Some "postId") (Some "int")))
      (Decorators.mkDecorated 1 []) "postId";
    Metadata.DeclareEntity None 2 ].

Definition registry : Metadata.global := fold_left Metadata.declare declarations None.

Definition options : DataSource.BaseDataSourceOptions :=
  DataSource.mkOptions "default" "postgres" "localhost" 5432 "root" "password" "postgres"
    (DataSource.MixedArray [1]).

(** [new pg.Client(options)] on the recording driver, which has one client. *)
Definition new_Client (database host password : string) (port : Z) (user : string) : unit := tt.

End Sample.

(** ** A driver whose client cannot connect *)

Module Refusing.

Definition client_connect (h : unit) : M Recorder.Session unit :=
  throw (DriverError "connect ECONNREFUSED").

Definition connection : @Connection Recorder.Session :=
  PgConnection_iface client_connect Recorder.client_query Recorder.client_end Recorder.pg.

End Refusing.

(** ** What a method makes of the connection's answer *)

(** The outcome of a method that applies [f] to the rows the connection
resolves with and lets an exception through. *)
Definition resolve {A} (f : list JS.object -> A) (r : outcome QueryResult) : outcome A :=
  match r with
  | Ok result => Ok (f (rows result))
  | Throw e => Throw e
  | Stuck => Stuck
  end.

(** ** Chains of builder calls *)

Module Chains.
Section Chains.

Context {Session : Type}.

Local Abbreviation World := (@PgQueryBuilder.World Session).

(** The methods that start a statement, and those that append to the
receiver's. *)
Definition is_root (m : PgQueryBuilder.call) : bool :=
  match m with
  | PgQueryBuilder.Select _ | PgQueryBuilder.Insert _ | PgQueryBuilder.Update _
  | PgQueryBuilder.Delete | PgQueryBuilder.InnerJoin _ _ | PgQueryBuilder.LeftJoin _ _ => true
  | _ => false
  end.

Definition is_modifier (m : PgQueryBuilder.call) : bool := negb (is_root m).

(** [this.m1(...).m2(...)...]: each method is called on the builder the
one before it returned. *)
Fixpoint chain (this : PgQueryBuilder.ref) (ms : list PgQueryBuilder.call)
    : M World PgQueryBuilder.ref :=
  match ms with
  | [] => ret this
  | m :: ms' => qb <- PgQueryBuilder.invoke this m ;; chain qb ms'
  end.

(** What a modifier appends to the receiver's text. *)
Definition suffix (e : Entity) (m : PgQueryBuilder.call) : string :=
  match m with
  | PgQueryBuilder.Where condition => " WHERE" +:+ PgQueryBuilder.where_condition condition e
  | PgQueryBuilder.OrderBy column d =>
      " ORDER BY " +:+ JS.quoted column +:+ " "
        +:+ JS.toUpperCase (PgQueryBuilder.direction_text d)
  | PgQueryBuilder.Limit count => " LIMIT " +:+ JS.string_of_Z count
  | PgQueryBuilder.Offset count => " OFFSET " +:+ JS.string_of_Z count
  | _ => EmptyString
  end.

(** What a call resolves to in a world: the reference it allocates, or
the exception of [insert] without rows. *)
Definition result (m : PgQueryBuilder.call) (w : World) : outcome PgQueryBuilder.ref :=
  match m with
  | PgQueryBuilder.Insert [] => Throw (TypeError "Cannot convert undefined or null to object")
  | _ => Ok (length (PgQueryBuilder.heap w))
  end.

(** The count of a [limit] or [offset] is a safe integer. *)
Definition safe_count (m : PgQueryBuilder.call) : bool :=
  match m with
  | PgQueryBuilder.Limit count | PgQueryBuilder.Offset count => JS.safe_integer count
  | _ => true
  end.

(** Two rows hold the same values under the given keys. *)
Definition agree_on (ks : list string) (r r' : JS.object) : Prop :=
  Forall (fun k => JS.get r k = JS.get r' k) ks.

End Chains.
End Chains.

(** * Properties *)

(** ** Running the monad *)

Lemma bind_ok {S A B} (m : M S A) (k : A -> M S B) s a s' :
  m s = (Ok a, s') -> bind m k s = k a s'.
Proof. intros H. unfold bind. now rewrite H. Qed.

Lemma bind_ret {S A B} (a : A) (k : A -> M S B) s :
  bind (ret a) k s = k a s.
Proof. reflexivity. Qed.

Lemma bind_assoc {S A B C} (m : M S A) (k : A -> M S B) (k' : B -> M S C) s :
  bind (bind m k) k' s = bind m (fun x => bind (k x) k') s.
Proof. unfold bind. destruct (m s) as [[a|e|] s']; reflexivity. Qed.

Lemma try_catch_rethrow {S A} (m : M S A) s :
  try_catch m (fun error => throw error) s = m s.
Proof. unfold try_catch, throw. destruct (m s) as [[a|e|] s']; reflexivity. Qed.

(** [run E] executes the first statement of a sequence, [E] stating what
it evaluates to. *)
Tactic Notation "run" uconstr(E) := rewrite (bind_ok _ _ _ _ _ E).

(** ** Heap accesses *)

Section HeapFacts.

Context {Session : Type}.
Import PgQueryBuilder.

Local Abbreviation World := (@PgQueryBuilder.World Session).
Local Abbreviation builder := (@PgQueryBuilder.builder Session).

Implicit Types (h : list builder) (b : builder) (s : Session)
  (c : list (@console_entry Session)).

Lemma load_old h b0 s c l b :
  h !! l = Some b ->
  load l (mkWorld (h ++ [b0]) s c) = (Ok b, mkWorld (h ++ [b0]) s c).
Proof.
  intros H. unfold load. cbn. now rewrite (lookup_app_l_Some _ _ _ _ H).
Qed.

Lemma load_last h b0 s c :
  load (length h) (mkWorld (h ++ [b0]) s c) = (Ok b0, mkWorld (h ++ [b0]) s c).
Proof. unfold load. cbn. now rewrite list_lookup_middle. Qed.

Lemma store_last h b0 b1 s c :
  store (length h) b1 (mkWorld (h ++ [b0]) s c) = (Ok tt, mkWorld (h ++ [b1]) s c).
Proof.
  unfold store. cbn. rewrite list_lookup_middle by reflexivity.
  rewrite insert_app_r_alt by lia. now rewrite Nat.sub_diag.
Qed.

Lemma get_connection_old h b0 s c l b :
  h !! l = Some b ->
  get_connection l (mkWorld (h ++ [b0]) s c) = (Ok (connection b), mkWorld (h ++ [b0]) s c).
Proof. intros H. unfold get_connection. now run (load_old _ _ _ _ _ _ H). Qed.

Lemma get_entity_old h b0 s c l b :
  h !! l = Some b ->
  get_entity l (mkWorld (h ++ [b0]) s c) = (Ok (entity b), mkWorld (h ++ [b0]) s c).
Proof. intros H. unfold get_entity. now run (load_old _ _ _ _ _ _ H). Qed.

Lemma get_sql_old h b0 s c l b :
  h !! l = Some b ->
  get_sql l (mkWorld (h ++ [b0]) s c) = (Ok (sql b), mkWorld (h ++ [b0]) s c).
Proof. intros H. unfold get_sql. now run (load_old _ _ _ _ _ _ H). Qed.

Lemma get_sql_last h b0 s c :
  get_sql (length h) (mkWorld (h ++ [b0]) s c) = (Ok (sql b0), mkWorld (h ++ [b0]) s c).
Proof. unfold get_sql. now run (load_last _ _ _ _). Qed.

Lemma get_params_last h b0 s c :
  get_params (length h) (mkWorld (h ++ [b0]) s c) = (Ok (params b0), mkWorld (h ++ [b0]) s c).
Proof. unfold get_params. now run (load_last _ _ _ _). Qed.

Lemma set_sql_last h b0 s c t :
  set_sql (length h) t (mkWorld (h ++ [b0]) s c)
  = (Ok tt, mkWorld (h ++ [mkBuilder (connection b0) (entity b0) t (params b0)]) s c).
Proof.
  unfold set_sql. run (load_last _ _ _ _). apply store_last.
Qed.

Lemma append_sql_last h b0 s c t :
  append_sql (length h) t (mkWorld (h ++ [b0]) s c)
  = (Ok tt, mkWorld (h ++ [mkBuilder (connection b0) (entity b0) (sql b0 +:+ t) (params b0)]) s c).
Proof.
  unfold append_sql. run (get_sql_last _ _ _ _). apply set_sql_last.
Qed.

Lemma push_param_last h b0 s c v :
  push_param (length h) v (mkWorld (h ++ [b0]) s c)
  = (Ok tt, mkWorld (h ++ [mkBuilder (connection b0) (entity b0) (sql b0) (params b0 ++ [v])]) s c).
Proof.
  unfold push_param. run (load_last _ _ _ _). apply store_last.
Qed.

(** The first three statements of every method: read the receiver's
connection and entity and construct a builder from them. *)
Lemma construct h s c this b e' (k : ref -> M World ref) :
  h !! this = Some b ->
  (c0 <- get_connection this ;; e <- get_entity this ;;
   qb <- new c0 (e' e) ;; k qb) (mkWorld h s c)
  = k (length h) (mkWorld (h ++ [mkBuilder (connection b) (e' (entity b)) EmptyString []]) s c).
Proof.
  intros H. unfold get_connection, get_entity, new, alloc, load, bind, ret. cbn.
  rewrite H. cbn. rewrite H. reflexivity.
Qed.

End HeapFacts.

(** ** Strings *)

Lemma append_cons (x : ascii) (a b : string) : String x a +:+ b = String x (a +:+ b).
Proof. reflexivity. Qed.

Lemma append_assoc (a b c : string) : (a +:+ b) +:+ c = a +:+ b +:+ c.
Proof.
  induction a as [|x a IH]; [reflexivity|].
  rewrite !append_cons. now rewrite IH.
Qed.

Lemma append_empty_r (a : string) : a +:+ EmptyString = a.
Proof.
  induction a as [|x a IH]; [reflexivity|].
  rewrite append_cons. now rewrite IH.
Qed.

Lemma prefix_append (a b c : string) :
  String.prefix (a +:+ b) (a +:+ c) = String.prefix b c.
Proof.
  induction a as [|x a IH]; [reflexivity|].
  rewrite !append_cons.
  change (String.prefix (String x (a +:+ b)) (String x (a +:+ c)))
    with (if ascii_dec x x then String.prefix (a +:+ b) (a +:+ c) else false).
  now destruct (ascii_dec x x).
Qed.

Lemma prefix_space (s : string) :
  String.prefix " " s = JS.starts_with_space s.
Proof.
  destruct s as [|c s]; [reflexivity|].
  change (String.prefix " " (String c s))
    with (if ascii_dec " " c then String.prefix EmptyString s else false).
  unfold JS.starts_with_space.
  destruct (ascii_dec " " c) as [<-|Hne].
  - now destruct s.
  - symmetry. apply Ascii.eqb_neq. congruence.
Qed.

(** The first character of a replaced text is the first character of the
subject or, when the subject begins with [t.], of the template. *)
Lemma replace_t_dot_no_leading_space (s table : string) :
  JS.starts_with_space s = false ->
  JS.starts_with_space (JS.replace_t_dot s (JS.quoted table +:+ ".")) = false.
Proof.
  unfold JS.replace_t_dot. destruct s as [|a [|b s]]; cbn; try easy.
  intros Ha. destruct (Ascii.eqb a "t" && Ascii.eqb b "."); [reflexivity | exact Ha].
Qed.

(** ** The builder methods compute the closed forms *)

Section Runs.

Context {Session : Type}.
Import PgQueryBuilder.

Local Abbreviation World := (@PgQueryBuilder.World Session).
Local Abbreviation builder := (@PgQueryBuilder.builder Session).

Implicit Types (h : list builder) (b : builder) (s : Session)
  (c : list (@console_entry Session)) (w : World).

Lemma select_run w this b columns :
  heap w !! this = Some b ->
  select this columns w
  = (Ok (length (heap w)),
     returned w (mkBuilder (connection b) (entity b)
                   (Compiled.select_sql (entity b) columns) [])).
Proof.
  intros H. destruct w as [h s c]. unfold select, returned. cbn [heap session console].
  rewrite (construct h s c this b (fun e => e) _ H).
  run (get_entity_old _ _ _ _ _ _ H).
  run (set_sql_last _ _ _ _ _).
  reflexivity.
Qed.

Lemma delete_run w this b :
  heap w !! this = Some b ->
  delete this w
  = (Ok (length (heap w)),
     returned w (mkBuilder (connection b) (entity b)
                   (Compiled.delete_sql (entity b)) [])).
Proof.
  intros H. destruct w as [h s c]. unfold delete, returned. cbn [heap session console].
  rewrite (construct h s c this b (fun e => e) _ H).
  run (get_entity_old _ _ _ _ _ _ H).
  run (set_sql_last _ _ _ _ _).
  reflexivity.
Qed.

Lemma join_with_run keyword w this b other on :
  heap w !! this = Some b ->
  join_with keyword this other on w
  = (Ok (length (heap w)),
     returned w (mkBuilder (connection b) (spread_entity (entity b) other)
                   (Compiled.join_sql keyword (entity b) other on) [])).
Proof.
  intros H. destruct w as [h s c]. unfold join_with, returned. cbn [heap session console].
  rewrite (construct h s c this b (fun e => spread_entity e other) _ H).
  run (get_entity_old _ _ _ _ _ _ H).
  run (set_sql_last _ _ _ _ _).
  run (get_entity_old _ _ _ _ _ _ H).
  run (append_sql_last _ _ _ _ _).
  unfold ret, Compiled.join_sql. cbn [sql connection entity params].
  now rewrite !append_assoc.
Qed.

Lemma where_run w this b condition :
  heap w !! this = Some b ->
  where_ this condition w
  = (Ok (length (heap w)),
     logged w (mkBuilder (connection b) (entity b)
                 (Compiled.where_sql (sql b) (entity b) condition) [])).
Proof.
  intros H. destruct w as [h s c]. unfold where_, logged. cbn [heap session console].
  rewrite (construct h s c this b (fun e => e) _ H).
  run (get_sql_old _ _ _ _ _ _ H).
  run (set_sql_last _ _ _ _ _).
  run (get_entity_old _ _ _ _ _ _ H).
  run (append_sql_last _ _ _ _ _).
  unfold console_log_where.
  run (bind_ok _ _ _ _ _ (load_last _ _ _ _)).
  unfold ret, Compiled.where_sql. cbn [sql connection entity params heap session console].
  now rewrite !append_assoc.
Qed.

Lemma orderBy_run w this b column d :
  heap w !! this = Some b ->
  orderBy this column d w
  = (Ok (length (heap w)),
     returned w (mkBuilder (connection b) (entity b)
                   (Compiled.orderBy_sql (sql b) column d) [])).
Proof.
  intros H. destruct w as [h s c]. unfold orderBy, returned. cbn [heap session console].
  rewrite (construct h s c this b (fun e => e) _ H).
  run (get_sql_old _ _ _ _ _ _ H).
  run (set_sql_last _ _ _ _ _).
  reflexivity.
Qed.

Lemma limit_run w this b count :
  heap w !! this = Some b ->
  limit this count w
  = (Ok (length (heap w)),
     returned w (mkBuilder (connection b) (entity b)
                   (Compiled.limit_sql (sql b) count) [])).
Proof.
  intros H. destruct w as [h s c]. unfold limit, returned. cbn [heap session console].
  rewrite (construct h s c this b (fun e => e) _ H).
  run (get_sql_old _ _ _ _ _ _ H).
  run (set_sql_last _ _ _ _ _).
  reflexivity.
Qed.

Lemma offset_run w this b count :
  heap w !! this = Some b ->
  offset this count w
  = (Ok (length (heap w)),
     returned w (mkBuilder (connection b) (entity b)
                   (Compiled.offset_sql (sql b) count) [])).
Proof.
  intros H. destruct w as [h s c]. unfold offset, returned. cbn [heap session console].
  rewrite (construct h s c this b (fun e => e) _ H).
  run (get_sql_old _ _ _ _ _ _ H).
  run (set_sql_last _ _ _ _ _).
  reflexivity.
Qed.

Lemma builder_eta b :
  mkBuilder (connection b) (entity b) (sql b) (params b) = b.
Proof. now destruct b. Qed.

(** The callback of [columns.map]: one cell, and one parameter unless the
value is undefined. *)
Lemma insert_value_run h b0 s c row column :
  insert_value (length h) (Some row) column (mkWorld (h ++ [b0]) s c)
  = (Ok (Compiled.cell (length (params b0)) (JS.get row column)),
     mkWorld (h ++ [mkBuilder (connection b0) (entity b0) (sql b0)
                      (params b0 ++ Compiled.defined [JS.get row column])]) s c).
Proof.
  unfold insert_value, member, Compiled.cell. cbn [Compiled.defined].
  rewrite bind_ret.
  destruct (JS.is_undefined (JS.get row column)).
  - unfold ret. now rewrite app_nil_r, builder_eta.
  - run (push_param_last _ _ _ _ _).
    run (get_params_last _ _ _ _).
    unfold ret. cbn [params]. rewrite length_app, Nat.add_1_r. reflexivity.
Qed.

Lemma insert_cells_run h s c row columns : forall b0,
  mapM (insert_value (length h) (Some row)) columns (mkWorld (h ++ [b0]) s c)
  = (Ok (Compiled.cells (length (params b0)) (Compiled.row_values columns row)),
     mkWorld (h ++ [mkBuilder (connection b0) (entity b0) (sql b0)
                      (params b0 ++ Compiled.defined (Compiled.row_values columns row))]) s c).
Proof.
  induction columns as [|column columns IH]; intros b0.
  - cbn. unfold ret. now rewrite app_nil_r, builder_eta.
  - cbn [mapM Compiled.row_values map Compiled.cells].
    run (insert_value_run _ _ _ _ _ _).
    run (IH _). unfold ret. cbn [params connection entity sql].
    cbn [Compiled.defined].
    destruct (JS.is_undefined (JS.get row column)).
    + now rewrite app_nil_r.
    + rewrite length_app, Nat.add_1_r, <- app_assoc. reflexivity.
Qed.

Lemma join_cons sep x y l :
  JS.join sep (x :: y :: l) = x +:+ sep +:+ JS.join sep (y :: l).
Proof. reflexivity. Qed.

(** The loop over the rows, entered at row [length pre]. *)
Lemma insert_rows_run h s c columns rows : forall rest pre b0,
  rows = pre ++ rest ->
  forM_ (seq (length pre) (length rest)) (insert_row (length h) columns rows)
    (mkWorld (h ++ [b0]) s c)
  = (Ok tt,
     mkWorld (h ++ [mkBuilder (connection b0) (entity b0)
                      (sql b0 +:+ JS.join ", " (Compiled.groups columns (length (params b0)) rest))
                      (params b0 ++ Compiled.insert_params columns rest)]) s c).
Proof.
  induction rest as [|row rest IH]; intros pre b0 E.
  - cbn. unfold ret. now rewrite append_empty_r, app_nil_r, builder_eta.
  - cbn [length seq forM_]. unfold insert_row at 1.
    assert (rows !! length pre = Some row) as ->
      by (subst rows; now apply list_lookup_middle).
    rewrite bind_assoc; run (insert_cells_run _ _ _ _ _ _).
    rewrite bind_assoc; run (append_sql_last _ _ _ _ _).
    cbn [sql params connection entity].
    assert (length rows - 1 = length pre + length rest) as ->
      by (subst rows; rewrite length_app; cbn; lia).
    specialize (IH (pre ++ [row])). rewrite length_app, Nat.add_1_r in IH.
    cbn [Compiled.groups Compiled.insert_params flat_map].
    destruct rest as [|row' rest].
    + replace (length pre <? length pre + length (@nil JS.object))%nat with false
        by (symmetry; apply Nat.ltb_ge; cbn; lia).
      rewrite bind_ret. cbn. unfold ret.
      now rewrite app_nil_r.
    + replace (length pre <? length pre + length (row' :: rest))%nat with true
        by (symmetry; apply Nat.ltb_lt; cbn; lia).
      run (append_sql_last _ _ _ _ _).
      rewrite IH by (subst rows; now rewrite <- app_assoc).
      cbn [sql params connection entity].
      rewrite length_app.
      change (Compiled.groups columns
                (length (params b0) + length (Compiled.defined (Compiled.row_values columns row)))
                (row' :: rest))
        with (Compiled.groups columns
                (length (params b0) + length (Compiled.defined (Compiled.row_values columns row)))
                [row'] ++ Compiled.groups columns
                (length (params b0) + length (Compiled.defined (Compiled.row_values columns row))
                 + length (Compiled.defined (Compiled.row_values columns row')))
                rest).
      cbn [Compiled.groups app]. rewrite join_cons.
      rewrite !append_assoc, <- !app_assoc. reflexivity.
Qed.

Lemma insert_run w this b row rows :
  heap w !! this = Some b ->
  insert this (row :: rows) w
  = (Ok (length (heap w)),
     returned w (mkBuilder (connection b) (entity b)
                   (Compiled.insert_sql (entity b) (JS.keys row) (row :: rows))
                   (Compiled.insert_params (JS.keys row) (row :: rows)))).
Proof.
  intros H. destruct w as [h s c]. unfold insert, returned. cbn [heap session console].
  rewrite (construct h s c this b (fun e => e) _ H).
  cbn [lookup list_lookup Object_keys].
  rewrite bind_ret.
  run (get_entity_old _ _ _ _ _ _ H).
  run (set_sql_last _ _ _ _ _).
  run (insert_rows_run _ _ _ _ _ (row :: rows) [] _ eq_refl).
  reflexivity.
Qed.

(** Without a row, [Object.keys(rows[0])] throws; the builder constructed
before it stays allocated. *)
Lemma insert_nothing_run w this b :
  heap w !! this = Some b ->
  insert this [] w
  = (Throw (TypeError "Cannot convert undefined or null to object"),
     returned w (mkBuilder (connection b) (entity b) EmptyString [])).
Proof.
  intros H. destruct w as [h s c]. unfold insert, returned. cbn [heap session console].
  rewrite (construct h s c this b (fun e => e) _ H).
  reflexivity.
Qed.

(** The loop over the keys, entered at key [length pre]. *)
Lemma update_keys_run h s c o keys : forall rest pre b0,
  keys = pre ++ rest ->
  forM_ (seq (length pre) (length rest)) (update_key (length h) o keys)
    (mkWorld (h ++ [b0]) s c)
  = (Ok tt,
     mkWorld (h ++ [mkBuilder (connection b0) (entity b0)
                      (sql b0 +:+ Compiled.assignments (length (params b0)) o rest)
                      (params b0 ++ Compiled.defined (Compiled.row_values rest o))]) s c).
Proof.
  induction rest as [|key rest IH]; intros pre b0 E.
  - cbn. unfold ret. now rewrite append_empty_r, app_nil_r, builder_eta.
  - cbn [length seq forM_]. unfold update_key at 1.
    assert (keys !! length pre = Some key) as ->
      by (subst keys; now apply list_lookup_middle).
    cbn [JS.string_of_optional].
    rewrite bind_assoc; run (append_sql_last _ _ _ _ _).
    assert (length keys - 1 = length pre + length rest) as ->
      by (subst keys; rewrite length_app; cbn; lia).
    specialize (IH (pre ++ [key])). rewrite length_app, Nat.add_1_r in IH.
    assert (keys = (pre ++ [key]) ++ rest) as E'
      by (subst keys; now rewrite <- app_assoc).
    cbn [Compiled.assignments Compiled.row_values map Compiled.defined].
    unfold Compiled.assignment, Compiled.cell, Compiled.placeholder.
    rewrite bind_assoc.
    destruct (JS.is_undefined (JS.get o key)).
    + run (append_sql_last _ _ _ _ _).
      cbn [sql params connection entity].
      destruct rest as [|key' rest].
      * replace (length pre <? length pre + length (@nil string))%nat with false
          by (symmetry; apply Nat.ltb_ge; cbn; lia).
        rewrite bind_ret. cbn. unfold ret.
        now rewrite !append_assoc, !append_empty_r, ?app_nil_r.
      * replace (length pre <? length pre + length (key' :: rest))%nat with true
          by (symmetry; apply Nat.ltb_lt; cbn; lia).
        run (append_sql_last _ _ _ _ _).
        rewrite (IH _ E'). cbn [sql params connection entity].
        now rewrite !append_assoc.
    + rewrite bind_assoc; run (push_param_last _ _ _ _ _).
      rewrite bind_assoc; run (get_params_last _ _ _ _).
      run (append_sql_last _ _ _ _ _).
      cbn [sql params connection entity].
      rewrite length_app, Nat.add_1_r.
      destruct rest as [|key' rest].
      * replace (length pre <? length pre + length (@nil string))%nat with false
          by (symmetry; apply Nat.ltb_ge; cbn; lia).
        rewrite bind_ret. cbn. unfold ret.
        now rewrite !append_assoc, !append_empty_r, ?app_nil_r.
      * replace (length pre <? length pre + length (key' :: rest))%nat with true
          by (symmetry; apply Nat.ltb_lt; cbn; lia).
        run (append_sql_last _ _ _ _ _).
        rewrite (IH _ E'). cbn [sql params connection entity].
        rewrite length_app, Nat.add_1_r, <- !app_assoc.
        now rewrite !append_assoc.
Qed.

Lemma update_run w this b o :
  heap w !! this = Some b ->
  update this o w
  = (Ok (length (heap w)),
     returned w (mkBuilder (connection b) (entity b)
                   (Compiled.update_sql (entity b) o) (Compiled.update_params o))).
Proof.
  intros H. destruct w as [h s c]. unfold update, returned. cbn [heap session console].
  rewrite (construct h s c this b (fun e => e) _ H).
  run (get_entity_old _ _ _ _ _ _ H).
  run (set_sql_last _ _ _ _ _).
  run (update_keys_run _ _ _ _ _ (JS.keys o) [] _ eq_refl).
  unfold ret, Compiled.update_sql, Compiled.update_params.
  cbn [sql params connection entity length app].
  now rewrite !append_assoc.
Qed.

End Runs.

(** ** Placeholder numbering *)

Section Numbering.

Import Compiled.

Lemma defined_app (xs ys : list JS.value) :
  defined (xs ++ ys) = defined xs ++ defined ys.
Proof.
  induction xs as [|x xs IH]; [reflexivity|].
  cbn. destruct (JS.is_undefined x); cbn; now rewrite IH.
Qed.

Lemma numbered_middle (pre post : list JS.value) v :
  numbered (pre ++ v :: post) (length pre) = cell (length (defined pre)) v.
Proof.
  unfold numbered, cell.
  rewrite list_lookup_middle by reflexivity.
  now rewrite take_app_length.
Qed.

(** The cells of a row are the numbered positions of the whole value
sequence the row sits in. *)
Lemma cells_numbered (vs : list JS.value) : forall pre post,
  cells (length (defined pre)) vs
  = map (fun c => numbered (pre ++ vs ++ post) (length pre + c)) (seq 0 (length vs)).
Proof.
  induction vs as [|v vs IH]; intros pre post; [reflexivity|].
  cbn [cells length seq map app].
  rewrite Nat.add_0_r, numbered_middle. f_equal.
  specialize (IH (pre ++ [v]) post).
  rewrite defined_app, !length_app in IH. cbn [defined] in IH.
  replace (if JS.is_undefined v then length (defined pre) else S (length (defined pre)))
    with (length (defined pre) + length (if JS.is_undefined v then [] else [v]))
    by (destruct (JS.is_undefined v); cbn; lia).
  rewrite IH, <- seq_shift, map_map.
  apply map_ext. intros c. rewrite <- app_assoc. cbn [app length].
  f_equal. lia.
Qed.

(** The groups of the VALUES list, likewise. *)
Lemma groups_numbered columns (rows : list JS.object) : forall pre,
  groups columns (length (defined pre)) rows
  = map (fun r => group_from (pre ++ grid columns rows) (length columns)
                    (length pre + r * length columns))
        (seq 0 (length rows)).
Proof.
  induction rows as [|row rows IH]; intros pre; [reflexivity|].
  cbn [groups length seq map grid flat_map]. fold (grid columns rows).
  f_equal.
  - unfold group_from. rewrite (cells_numbered _ pre (grid columns rows)).
    unfold row_values at 2. rewrite length_map.
    do 3 f_equal. apply map_ext. intros c. f_equal. lia.
  - specialize (IH (pre ++ row_values columns row)).
    rewrite defined_app, !length_app in IH. rewrite IH.
    rewrite <- seq_shift, map_map. apply map_ext. intros r.
    rewrite <- app_assoc. f_equal.
    unfold row_values. rewrite length_map. lia.
Qed.

Lemma insert_params_grid columns rows :
  insert_params columns rows = defined (grid columns rows).
Proof.
  unfold insert_params, grid.
  induction rows as [|row rows IH]; [reflexivity|].
  cbn [flat_map]. now rewrite defined_app, IH.
Qed.

Lemma insert_sql_grid e columns rows :
  insert_sql e columns rows
  = insert_head e columns
      +:+ values_list (grid columns rows) (length rows) (length columns).
Proof.
  unfold insert_sql, values_list.
  do 2 f_equal. exact (groups_numbered columns rows []).
Qed.

Lemma row_values_app (pre rest : list string) o :
  row_values (pre ++ rest) o = row_values pre o ++ row_values rest o.
Proof. unfold row_values. apply map_app. Qed.

Lemma row_values_length (ks : list string) o : length (row_values ks o) = length ks.
Proof. unfold row_values. apply length_map. Qed.

(** The assignments of an update are the numbered positions of its value
sequence. *)
Lemma assignments_numbered o (ks : list string) : forall rest pre,
  ks = pre ++ rest ->
  assignments (length (defined (row_values pre o))) o rest
  = foldr String.append EmptyString
      (imap (fun i k => set_item (row_values ks o) (length ks) (length pre + i) k) rest).
Proof.
  induction rest as [|k rest IH]; intros pre E; [reflexivity|].
  cbn [assignments]. rewrite imap_cons. cbn [foldr].
  specialize (IH (pre ++ [k])).
  rewrite row_values_app, defined_app, !length_app in IH.
  cbn [row_values map defined length] in IH.
  replace (if JS.is_undefined (JS.get o k)
           then length (defined (row_values pre o))
           else S (length (defined (row_values pre o))))
    with (length (defined (row_values pre o))
          + length (if JS.is_undefined (JS.get o k) then [] else [JS.get o k]))
    by (destruct (JS.is_undefined (JS.get o k)); cbn; lia).
  rewrite IH by (subst ks; now rewrite <- app_assoc).
  f_equal.
  - unfold assignment, set_item. rewrite Nat.add_0_r.
    assert (numbered (row_values ks o) (length pre)
            = cell (length (defined (row_values pre o))) (JS.get o k)) as ->.
    { subst ks. rewrite row_values_app. cbn [row_values map].
      rewrite <- (row_values_length pre o) at 1. apply numbered_middle. }
    assert ((length pre <? length ks - 1)%nat
            = match rest with [] => false | _ => true end) as ->.
    { subst ks. rewrite length_app. cbn [length].
      destruct rest; [apply Nat.ltb_ge | apply Nat.ltb_lt]; cbn; lia. }
    destruct rest; reflexivity.
  - f_equal. apply imap_ext. intros i k' _. cbn. f_equal. lia.
Qed.

Lemma update_sql_numbered e o :
  update_sql e o = "UPDATE " +:+ JS.quoted (table_text e) +:+ " SET" +:+ set_list o.
Proof.
  unfold update_sql, set_list. do 3 f_equal.
  exact (assignments_numbered o (JS.keys o) (JS.keys o) [] eq_refl).
Qed.

(** *** Batches without undefined values *)

Lemma defined_all vs : all_defined vs -> defined vs = vs.
Proof.
  induction 1 as [|v vs Hv _ IH]; [reflexivity|].
  cbn. now rewrite Hv, IH.
Qed.

Lemma numbered_all vs p :
  all_defined vs -> p < length vs -> numbered vs p = placeholder (S p).
Proof.
  intros Hvs Hp. unfold numbered.
  destruct (lookup_lt_is_Some_2 vs p Hp) as [v Hv]. rewrite Hv.
  rewrite (proj1 (Forall_lookup _ _) Hvs p v Hv).
  rewrite defined_all by (now apply Forall_take).
  now rewrite length_take, Nat.min_l by lia.
Qed.

Lemma get_present (o : JS.object) k :
  no_undefined o = true ->
  existsb (String.eqb k) (JS.keys o) = true ->
  JS.is_undefined (JS.get o k) = false.
Proof.
  induction o as [|[k' v] o IH]; cbn; [discriminate|].
  intros [Hv Ho]%andb_prop Hk. rewrite String.eqb_sym.
  destruct (String.eqb k k').
  - now apply negb_true_iff.
  - now apply IH.
Qed.

Lemma uniform_row_defined first row :
  same_keys first row && no_undefined row = true ->
  all_defined (row_values (JS.keys first) row).
Proof.
  intros [[Hk _]%andb_prop Hd]%andb_prop.
  unfold all_defined, row_values. apply Forall_fmap, Forall_forall.
  intros k Hin. cbn. apply get_present; [exact Hd|].
  rewrite forallb_forall in Hk. apply Hk. now apply list_elem_of_In.
Qed.

Lemma uniform_grid_defined first rows :
  uniform first rows = true -> all_defined (grid (JS.keys first) rows).
Proof.
  unfold uniform, grid.
  induction rows as [|row rows IH]; cbn [forallb flat_map]; intros H.
  - constructor.
  - apply andb_prop in H as [Hrow Hrows].
    apply Forall_app. split; [now apply uniform_row_defined | now apply IH].
Qed.

Lemma grid_length columns rows :
  length (grid columns rows) = length rows * length columns.
Proof.
  unfold grid. induction rows as [|row rows IH]; [reflexivity|].
  cbn [flat_map length]. rewrite length_app, row_values_length, IH. lia.
Qed.

(** Position [r * K + c] of the row-major sequence is column [c] of row [r]. *)
Lemma grid_lookup columns : forall rows r c row column,
  rows !! r = Some row ->
  columns !! c = Some column ->
  grid columns rows !! (r * length columns + c) = Some (JS.get row column).
Proof.
  intros rows.
  induction rows as [|row0 rows IH]; intros r c row column Hr Hc; [discriminate|].
  unfold grid. cbn [flat_map]. fold (grid columns rows).
  destruct r as [|r].
  - injection Hr as ->. cbn [Nat.mul Nat.add].
    rewrite lookup_app_l by (rewrite row_values_length; eapply lookup_lt_Some; eauto).
    unfold row_values. rewrite list_lookup_fmap, Hc. reflexivity.
  - rewrite lookup_app_r by (rewrite row_values_length; cbn; lia).
    rewrite row_values_length.
    replace (S r * length columns + c - length columns) with (r * length columns + c)
      by (cbn; lia).
    now apply IH.
Qed.

Lemma values_list_all vs N K :
  all_defined vs -> length vs = N * K ->
  values_list vs N K = placeholder_grid N K.
Proof.
  intros Hvs Hlen. unfold values_list, placeholder_grid. f_equal.
  apply map_ext_in. intros r Hr%in_seq.
  unfold group_from, placeholder_group. do 3 f_equal.
  apply map_ext_in. intros c Hc%in_seq.
  rewrite numbered_all by (trivial; nia). f_equal. lia.
Qed.

End Numbering.

(** * The claims *)

Section Claims.

Context {Session : Type}.
Import PgQueryBuilder.

Local Abbreviation World := (@PgQueryBuilder.World Session).
Local Abbreviation builder := (@PgQueryBuilder.builder Session).

Implicit Types (w : World) (b : builder) (this : ref).

Lemma new_run (c : @Connection Session) e w :
  new c e w = (Ok (length (heap w)), returned w (mkBuilder c e EmptyString [])).
Proof. reflexivity. Qed.

Lemma lookup_returned w b : heap (returned w b) !! length (heap w) = Some b.
Proof. unfold returned. cbn. now apply list_lookup_middle. Qed.

Lemma lookup_logged w b : heap (logged w b) !! length (heap w) = Some b.
Proof. unfold logged. cbn. now apply list_lookup_middle. Qed.

Lemma length_returned w b : length (heap (returned w b)) = S (length (heap w)).
Proof. unfold returned. cbn. rewrite length_app. cbn. lia. Qed.

Lemma length_logged w b : length (heap (logged w b)) = S (length (heap w)).
Proof. unfold logged. cbn. rewrite length_app. cbn. lia. Qed.

Lemma lookup_returned_old w b this b0 :
  heap w !! this = Some b0 -> heap (returned w b) !! this = Some b0.
Proof. intros H. unfold returned. cbn. now apply lookup_app_l_Some. Qed.

Lemma lookup_logged_old w b this b0 :
  heap w !! this = Some b0 -> heap (logged w b) !! this = Some b0.
Proof. intros H. unfold logged. cbn. now apply lookup_app_l_Some. Qed.

(** C1.  An insert of [N >= 1] rows that share the first row's [K] keys
and hold no undefined value returns a builder whose text is the INSERT
head followed by one VALUES list of [N] groups joined by a comma and a
space, the group of row [r] holding the placeholders [$(r*K+1)] to
[$(r*K+K)]; its parameter list has length [N*K], and the parameter at
position [r*K+c] is the value of column [c] in row [r], the one with
placeholder [$(r*K+c+1)]. *)
Theorem insert_placeholders_row_major w this b (row : JS.object) (rest : list JS.object) :
  heap w !! this = Some b ->
  Compiled.uniform row (row :: rest) = true ->
  let N := length (row :: rest) in
  let K := length (JS.keys row) in
  exists b',
    insert this (row :: rest) w = (Ok (length (heap w)), returned w b')
    /\ sql b' = Compiled.insert_head (entity b) (JS.keys row)
                  +:+ Compiled.placeholder_grid N K
    /\ length (params b') = N * K
    /\ forall r c row' column,
         (row :: rest) !! r = Some row' ->
         JS.keys row !! c = Some column ->
         params b' !! (r * K + c) = Some (JS.get row' column).
Proof.
  intros Hthis Hu N K. eexists. split; [exact (insert_run w this b row rest Hthis)|].
  cbn [sql params].
  pose proof (uniform_grid_defined _ _ Hu) as Hd.
  rewrite insert_sql_grid, insert_params_grid, (defined_all _ Hd).
  split; [|split].
  - f_equal. apply values_list_all; [exact Hd | apply grid_length].
  - apply grid_length.
  - intros r c row' column. apply grid_lookup.
Qed.

(** The value of a read that does not go to [Object.prototype]. *)
Lemma own_read_get (o : JS.object) k :
  JS.own_read o k = true -> JS.get_through_prototype o k = Some (JS.get o k).
Proof.
  unfold JS.own_read, JS.get_through_prototype, JS.has.
  destruct (existsb (String.eqb k) (JS.keys o)) eqn:H; [reflexivity|].
  cbn. intros ->%negb_true_iff. f_equal.
  induction o as [|[k' v'] o IH]; [reflexivity|].
  cbn in H |- *. rewrite (String.eqb_sym k k') in H.
  destruct (String.eqb k' k); [discriminate | now apply IH].
Qed.

Lemma own_reads_get columns (batch : list JS.object) row column :
  Compiled.own_reads columns batch = true ->
  In row batch -> In column columns ->
  JS.get_through_prototype row column = Some (JS.get row column).
Proof.
  unfold Compiled.own_reads. rewrite forallb_forall. intros H Hrow Hcol.
  apply own_read_get. specialize (H row Hrow). rewrite forallb_forall in H.
  now apply H.
Qed.

(** C2, as amended.  In an insert whose reads of a column in a row do not
go to [Object.prototype] (the value read is then the row's own property,
or undefined when the row has none), and in an update, an undefined value
is written [NULL] and adds no parameter, and a defined value is written
as the placeholder numbered one more than the number of defined values
before it in the statement ([Compiled.numbered]); the parameters are the
defined values in order.  The groups follow [VALUES] without a space. *)
Theorem undefined_takes_no_placeholder w this b
    (row : JS.object) (rest : list JS.object) (o : JS.object) :
  heap w !! this = Some b ->
  Compiled.own_reads (JS.keys row) (row :: rest) = true ->
  (let vs := Compiled.grid (JS.keys row) (row :: rest) in
   (forall row' column,
       In row' (row :: rest) -> In column (JS.keys row) ->
       JS.get_through_prototype row' column = Some (JS.get row' column))
   /\ exists b',
        insert this (row :: rest) w = (Ok (length (heap w)), returned w b')
        /\ sql b' = "INSERT INTO " +:+ JS.quoted (table_text (entity b)) +:+ " ("
                      +:+ JS.join ", " (map JS.quoted (JS.keys row)) +:+ ") VALUES"
                      +:+ Compiled.values_list vs (length (row :: rest)) (length (JS.keys row))
        /\ params b' = Compiled.defined vs)
  /\ (let vs := Compiled.row_values (JS.keys o) o in
      exists b',
        update this o w = (Ok (length (heap w)), returned w b')
        /\ sql b' = "UPDATE " +:+ JS.quoted (table_text (entity b)) +:+ " SET"
                      +:+ Compiled.set_list o
        /\ params b' = Compiled.defined vs).
Proof.
  intros Hthis Hown. split.
  - intros vs. split.
    + intros row' column. now apply own_reads_get.
    + eexists. split; [exact (insert_run w this b row rest Hthis)|].
      cbn [sql params]. rewrite insert_sql_grid, insert_params_grid.
      unfold Compiled.insert_head. rewrite !append_assoc. split; reflexivity.
  - intros vs. eexists. split; [exact (update_run w this b o Hthis)|].
    cbn [sql params]. rewrite update_sql_numbered. split; reflexivity.
Qed.

(** What [where] does, whatever the predicate: it returns a new builder
whose text is the receiver's text, then [ WHERE] with no space after it,
then the printed source of the predicate after [replace(/t\./g, ...)]
with the quoted table name and a dot as the replacement template; the new
builder has no parameters; the receiver keeps its text and its
parameters; a second [where] on the result appends a second such
suffix. *)
Lemma where_appends_suffix w this b (p : JS.function) :
  heap w !! this = Some b ->
  exists b1,
    where_ this p w = (Ok (length (heap w)), logged w b1)
    /\ sql b1 = sql b +:+ " WHERE"
                  +:+ JS.replace_t_dot (JS.toString p) (JS.quoted (table_text (entity b)) +:+ ".")
    /\ params b1 = []
    /\ heap (logged w b1) !! this = Some b
    /\ forall q : JS.function, exists b2,
         where_ (length (heap w)) q (logged w b1)
         = (Ok (S (length (heap w))), logged (logged w b1) b2)
         /\ sql b2 = sql b +:+ " WHERE"
                       +:+ JS.replace_t_dot (JS.toString p) (JS.quoted (table_text (entity b)) +:+ ".")
                       +:+ " WHERE"
                       +:+ JS.replace_t_dot (JS.toString q) (JS.quoted (table_text (entity b)) +:+ ".").
Proof.
  intros Hthis. eexists. split; [exact (where_run w this b p Hthis)|].
  cbn [sql params]. split; [reflexivity|]. split; [reflexivity|].
  split; [now apply lookup_logged_old|].
  intros q. eexists. split.
  - rewrite (where_run _ _ _ q (lookup_logged w _)).
    now rewrite length_logged.
  - cbn [sql entity]. unfold Compiled.where_sql, where_condition.
    now rewrite !append_assoc.
Qed.

(** Whatever the predicate, the text [where] returns never continues the
receiver's text with [ WHERE ] and a space: a function's printed source
does not begin with a space. *)
Lemma where_never_puts_a_space w this b (p : JS.function) :
  heap w !! this = Some b ->
  JS.starts_with_space (JS.toString p) = false ->
  exists b1,
    where_ this p w = (Ok (length (heap w)), logged w b1)
    /\ String.prefix (sql b +:+ " WHERE ") (sql b1) = false.
Proof.
  intros Hthis Hp. eexists. split; [exact (where_run w this b p Hthis)|].
  cbn [sql]. unfold Compiled.where_sql, where_condition.
  change " WHERE " with (" WHERE" +:+ " ").
  rewrite prefix_append, prefix_append, prefix_space.
  now apply replace_t_dot_no_leading_space.
Qed.

(** The builders [where], [orderBy], [limit] and [offset] return start
from an empty parameter list: the receiver's parameters are not carried
over to them. *)
Lemma modifiers_start_without_parameters w this b (m : call) :
  heap w !! this = Some b ->
  match m with Where _ | OrderBy _ _ | Limit _ | Offset _ => True | _ => False end ->
  exists b' w',
    invoke this m w = (Ok (length (heap w)), w')
    /\ heap w' = heap w ++ [b']
    /\ params b' = [].
Proof.
  intros Hthis Hm.
  destruct m as [| | | | | |p|column d|count|count]; try contradiction;
    cbn [invoke]; eexists; eexists.
  - rewrite (where_run w this b p Hthis). repeat split.
  - rewrite (orderBy_run w this b column d Hthis). repeat split.
  - rewrite (limit_run w this b count Hthis). repeat split.
  - rewrite (offset_run w this b count Hthis). repeat split.
Qed.

(** What the chain
[select("id","content").where(c => c.postId == 5).orderBy("id","asc").limit(10)]
builds on any connection and any entity whose table is [comments]: four
builders after the fresh one, the last with the text
[SELECT "id", "content" FROM "comments" WHEREc => c.postId == 5 ORDER BY "id" ASC LIMIT 10]
and an empty parameter list.  The predicate's parameter is not named [t],
so its printed source follows [WHERE] as it is. *)
Lemma comments_chain_compiles (c : @Connection Session) cols rels w :
  let e := mkEntity (JS.Present (Some "comments")) cols rels in
  exists w',
    Recorder.comments_chain c e w = (Ok (length (heap w) + 4), w')
    /\ heap w' !! (length (heap w) + 4)
       = Some (mkBuilder c e
                 ("SELECT " +:+ JS.quoted "id" +:+ ", " +:+ JS.quoted "content"
                  +:+ " FROM " +:+ JS.quoted "comments"
                  +:+ " WHEREc => c.postId == 5 ORDER BY " +:+ JS.quoted "id"
                  +:+ " ASC LIMIT 10")
                 []).
Proof.
  intros e. unfold Recorder.comments_chain.
  eexists. split.
  - run (new_run c e w).
    run (select_run _ _ _ _ (lookup_returned _ _)).
    run (where_run _ _ _ _ (lookup_returned _ _)).
    run (orderBy_run _ _ _ _ _ (lookup_logged _ _)).
    rewrite (limit_run _ _ _ _ (lookup_returned _ _)).
    rewrite length_returned, length_logged, !length_returned.
    f_equal. f_equal. lia.
  - replace (length (heap w) + 4)
      with (length (heap (returned (logged (returned (returned w
              (mkBuilder c e EmptyString []))
              (mkBuilder c e (Compiled.select_sql e ["id"; "content"]) []))
              (mkBuilder c e
                 (Compiled.where_sql (Compiled.select_sql e ["id"; "content"]) e
                    Recorder.postId_is_5) []))
              (mkBuilder c e
                 (Compiled.orderBy_sql
                    (Compiled.where_sql (Compiled.select_sql e ["id"; "content"]) e
                       Recorder.postId_is_5) "id" asc) []))))
      by (rewrite length_returned, length_logged, !length_returned; lia).
    rewrite lookup_returned. reflexivity.
Qed.

(** C9, as amended.  Every builder method leaves the heap as it was and
adds one builder to it, at a reference different from the receiver's: the
receiver keeps its text and parameters.  The new builder has the
receiver's connection; it has the receiver's entity, except after
[innerJoin] and [leftJoin], where it has the spread of the receiver's
entity and the joined one.  The method returns the new reference, except
[insert] without rows, which throws a TypeError. *)
Theorem methods_allocate_and_keep_receiver w this b (m : call) :
  heap w !! this = Some b ->
  exists b' w',
    invoke this m w
    = (match m with
       | Insert [] => Throw (TypeError "Cannot convert undefined or null to object")
       | _ => Ok (length (heap w))
       end, w')
    /\ heap w' = heap w ++ [b']
    /\ session w' = session w
    /\ this <> length (heap w)
    /\ heap w' !! this = Some b
    /\ connection b' = connection b
    /\ entity b' = entity_of_call m (entity b).
Proof.
  intros Hthis.
  assert (this <> length (heap w)) as Hne
    by (apply lookup_lt_Some in Hthis; lia).
  assert (forall b', (heap w ++ [b']) !! this = Some b) as Hold
    by (intros b'; now apply lookup_app_l_Some).
  destruct m as [columns|[|row rest]|o| |other on|other on|p|column d|count|count];
    cbn [invoke entity_of_call]; eexists; eexists.
  - rewrite (select_run w this b columns Hthis). repeat split; auto; apply Hold.
  - rewrite (insert_nothing_run w this b Hthis). repeat split; auto; apply Hold.
  - rewrite (insert_run w this b row rest Hthis). repeat split; auto; apply Hold.
  - rewrite (update_run w this b o Hthis). repeat split; auto; apply Hold.
  - rewrite (delete_run w this b Hthis). repeat split; auto; apply Hold.
  - unfold innerJoin. rewrite (join_with_run _ w this b other on Hthis). repeat split; auto; apply Hold.
  - unfold leftJoin. rewrite (join_with_run _ w this b other on Hthis). repeat split; auto; apply Hold.
  - rewrite (where_run w this b p Hthis). repeat split; auto; apply Hold.
  - rewrite (orderBy_run w this b column d Hthis). repeat split; auto; apply Hold.
  - rewrite (limit_run w this b count Hthis). repeat split; auto; apply Hold.
  - rewrite (offset_run w this b count Hthis). repeat split; auto; apply Hold.
Qed.

(** C10.  Element 0 of an empty row list is undefined, and [insert]
without rows throws at [Object.keys(rows[0])]; with at least one row
element 0 is the first row and [insert] returns a builder. *)
Theorem insert_needs_a_row w this b :
  heap w !! this = Some b ->
  (@nil JS.object) !! 0 = None
  /\ (exists w',
        insert this [] w
        = (Throw (TypeError "Cannot convert undefined or null to object"), w'))
  /\ forall (row : JS.object) rest,
       (row :: rest) !! 0 = Some row
       /\ exists qb w', insert this (row :: rest) w = (Ok qb, w').
Proof.
  intros Hthis. split; [reflexivity|]. split.
  - eexists. exact (insert_nothing_run w this b Hthis).
  - intros row rest. split; [reflexivity|].
    eexists. eexists. exact (insert_run w this b row rest Hthis).
Qed.

(** *** [execute] and the repository *)

(** [execute] sends the receiver's text and parameters, and nothing else. *)
Lemma execute_run w this b :
  heap w !! this = Some b ->
  execute this w
  = (let (r, s') := query (connection b) (sql b) (Some (params b)) (session w) in
     (match r with
      | Ok result => Ok (rows result)
      | Throw e => Throw e
      | Stuck => Stuck
      end, mkWorld (heap w) s' (console w))).
Proof.
  intros H. unfold execute. rewrite try_catch_rethrow.
  unfold get_connection, get_sql, get_params, load, on_session, bind, ret.
  rewrite H. cbn. rewrite H. cbn. rewrite H. cbn.
  destruct (query (connection b) (sql b) (Some (params b)) (session w)) as [[r|e|] s'];
    reflexivity.
Qed.

(** [findById] builds a SELECT and a WHERE builder and drops both: the
builder it executes is the one it constructed first, whose text is empty. *)
Lemma findById_run (this : PgRepository.repository) o (id : JS.value) w :
  JS.read (columns (PgRepository.entity this)) = Some o ->
  exists w3,
    heap w3 !! length (heap w)
    = Some (mkBuilder (PgRepository.connection this) (PgRepository.entity this) EmptyString [])
    /\ PgRepository.findById this id w
       = (let (r, s') := query (PgRepository.connection this) EmptyString (Some [])
                           (session w) in
          (match r with
           | Ok result => Ok (head (rows result))
           | Throw e => Throw e
           | Stuck => Stuck
           end, mkWorld (heap w3) s' (console w3))).
Proof.
  intros Ho. unfold PgRepository.findById.
  set (c := PgRepository.connection this). set (e := PgRepository.entity this) in *.
  exists (logged (returned (returned w (mkBuilder c e EmptyString []))
                    (mkBuilder c e (Compiled.select_sql e (JS.keys o)) []))
            (mkBuilder c e (Compiled.where_sql EmptyString e PgRepository.by_id) [])).
  split; cycle 1.
  - run (new_run _ _ w). rewrite Ho. cbn [Object_keys].
    rewrite bind_ret.
    run (select_run _ _ _ _ (lookup_returned _ _)).
    rewrite (bind_ok _ _ _ _ _
               (where_run _ _ _ _ (lookup_returned_old _ _ _ _ (lookup_returned _ _)))).
    unfold bind.
    rewrite (execute_run _ _ _
               (lookup_logged_old _ _ _ _ (lookup_returned_old _ _ _ _ (lookup_returned _ _)))).
    cbn [connection sql params session logged returned heap console].
    destruct (query _ _ _ _) as [[r|err|] s']; reflexivity.
  - cbn [heap logged returned].
    apply lookup_app_l_Some, lookup_app_l_Some. now apply list_lookup_middle.
Qed.

(** [delete] likewise executes the empty builder, and reads [rowCount] off
the row array [execute] resolves with. *)
Lemma delete_run_repository (this : PgRepository.repository) (condition : JS.function) w :
  exists w3,
    heap w3 !! length (heap w)
    = Some (mkBuilder (PgRepository.connection this) (PgRepository.entity this) EmptyString [])
    /\ PgRepository.delete this condition w
       = (let (r, s') := query (PgRepository.connection this) EmptyString (Some [])
                           (session w) in
          (match r with
           | Ok result => Ok JS.Undefined
           | Throw e => Throw e
           | Stuck => Stuck
           end, mkWorld (heap w3) s' (console w3))).
Proof.
  unfold PgRepository.delete.
  set (c := PgRepository.connection this). set (e := PgRepository.entity this).
  exists (logged (returned (returned w (mkBuilder c e EmptyString []))
                    (mkBuilder c e (Compiled.delete_sql e) []))
            (mkBuilder c e (Compiled.where_sql EmptyString e condition) [])).
  split; cycle 1.
  - run (new_run _ _ w).
    run (delete_run _ _ _ (lookup_returned _ _)).
    rewrite (bind_ok _ _ _ _ _
               (where_run _ _ _ _ (lookup_returned_old _ _ _ _ (lookup_returned _ _)))).
    unfold bind.
    rewrite (execute_run _ _ _
               (lookup_logged_old _ _ _ _ (lookup_returned_old _ _ _ _ (lookup_returned _ _)))).
    cbn [connection sql params session logged returned heap console].
    destruct (query _ _ _ _) as [[r|err|] s']; reflexivity.
  - cbn [heap logged returned].
    apply lookup_app_l_Some, lookup_app_l_Some. now apply list_lookup_middle.
Qed.

End Claims.

(** ** Transactions *)

Section Transactions.

Context {Session Handle : Type}.
Variable client_connect : Handle -> M Session unit.
Variable client_query : Handle -> string -> option (list JS.value) -> M Session QueryResult.
Variable client_end : Handle -> M Session unit.

Local Abbreviation as_connection :=
  (PgConnection_iface client_connect client_query client_end).
Local Abbreviation as_transaction :=
  (PgTransaction_iface client_connect client_query).

(** The transaction [beginTransaction] resolves with wraps the connection
it was called on. *)
Lemma beginTransaction_wraps (c : PgConnection) (s s' : Session) tx :
  beginTransaction (as_connection c) s = (Ok tx, s') ->
  tx = as_transaction (mkPgTransaction c).
Proof.
  cbn [beginTransaction PgConnection_iface].
  unfold PgConnection_beginTransaction. unfold bind at 1. rewrite try_catch_rethrow.
  unfold bind, ret. destruct (client_query (client c) "BEGIN" None s) as [[r|e|] s0];
    intros H; now inversion H.
Qed.

(** C8.  On a transaction obtained from [beginTransaction],
[beginTransaction] throws "Cannot begin a nested transaction" and [close]
throws "Cannot close a transaction", both without touching the driver's
state; [query], [commit] and [rollback] go to the connection's [query]. *)
Theorem transaction_rejects_begin_and_close (c : PgConnection) (s s' : Session) tx :
  beginTransaction (as_connection c) s = (Ok tx, s') ->
  forall s1 : Session,
    beginTransaction (asConnection tx) s1
    = (Throw (Error "Cannot begin a nested transaction"), s1)
    /\ close (asConnection tx) s1 = (Throw (Error "Cannot close a transaction"), s1)
    /\ (forall sql ps, query (asConnection tx) sql ps s1 = query (as_connection c) sql ps s1)
    /\ commit tx s1 = (query (as_connection c) "COMMIT" None ;;; ret tt) s1
    /\ rollback tx s1 = (query (as_connection c) "ROLLBACK" None ;;; ret tt) s1.
Proof.
  intros ->%beginTransaction_wraps s1. cbn.
  unfold PgTransaction_commit, PgTransaction_rollback.
  rewrite !try_catch_rethrow. repeat split; reflexivity.
Qed.

End Transactions.

(** ** The column decorator *)

(** With a declared type, the condition of the conditional is the type
string itself: any non-empty type is recorded as [varchar(255)]. *)
Lemma column_type_declared (o : Decorators.ColumnOptions) t object propertyName :
  Decorators.type o = Some t ->
  Decorators.column_type (Some o) object propertyName
  = if String.eqb t EmptyString then "int" else "varchar(255)".
Proof.
  intros H. unfold Decorators.column_type. cbn. rewrite H. cbn.
  destruct (String.eqb t EmptyString); reflexivity.
Qed.

(** Without a declared type, the type follows the kind of the property's
value. *)
Lemma column_type_inferred (o : Decorators.ColumnOptions) object propertyName :
  Decorators.type o = None ->
  Decorators.column_type (Some o) object propertyName
  = if String.eqb (JS.typeof (JS.get (Decorators.properties object) propertyName)) "string"
    then "varchar(255)" else "int".
Proof.
  intros H. unfold Decorators.column_type. cbn. rewrite H. reflexivity.
Qed.

(** C7 (the code departs from it).  [@Column({ name: "id", type: "int" })]
on the property [id] records the type [varchar(255)], not the declared
[int]. *)
Theorem Column_declared_int_recorded_varchar :
  Decorators.Column
    (Some (Decorators.mkColumnOptions (Some "id") (Some "int")))
    (Decorators.mkDecorated 0 []) "id" []
  = [Decorators.ColumnMetadataArgs.mk 0 "id" "varchar(255)"].
Proof. reflexivity. Qed.

(** ** The claims at concrete inputs *)

Import PgQueryBuilder.

(** C1 at two rows of two columns, the second row listing its keys in the
other order. *)
Lemma insert_placeholders_row_major_witness :
  heap Recorder.users_world !! 0 = Some (mkBuilder Recorder.connection Recorder.users EmptyString [])
  /\ Compiled.uniform [("name", JS.Str "A"); ("email", JS.Str "a@x.com")] Recorder.full_rows
     = true
  /\ exists b',
       insert 0 Recorder.full_rows Recorder.users_world = (Ok 1, returned Recorder.users_world b')
       /\ sql b' = Compiled.insert_head Recorder.users ["name"; "email"]
                     +:+ Compiled.placeholder_grid 2 2
       /\ length (params b') = 4
       /\ forall r c row' column,
            Recorder.full_rows !! r = Some row' ->
            ["name"; "email"] !! c = Some column ->
            params b' !! (r * 2 + c) = Some (JS.get row' column).
Proof.
  split; [reflexivity|]. split; [reflexivity|].
  apply (insert_placeholders_row_major Recorder.users_world 0
           (mkBuilder Recorder.connection Recorder.users EmptyString [])
           [("name", JS.Str "A"); ("email", JS.Str "a@x.com")]
           [[("email", JS.Str "b@x.com"); ("name", JS.Str "B")]]);
    reflexivity.
Defined.

(** The text C1 describes, spelled out for two rows of two columns. *)
Example placeholder_grid_2_2 :
  Compiled.placeholder_grid 2 2 = "($1, $2), ($3, $4)".
Proof. reflexivity. Qed.

(** C2, as amended, at the rows [{name: "A", email: "a@x.com"}] and
[{name: "B", email: undefined}], and at an update with an undefined
value. *)
Lemma undefined_takes_no_placeholder_witness :
  heap Recorder.users_world !! 0 = Some (mkBuilder Recorder.connection Recorder.users EmptyString [])
  /\ Compiled.own_reads ["name"; "email"] Recorder.two_rows = true
  /\ ((forall row' column,
          In row' Recorder.two_rows -> In column ["name"; "email"] ->
          JS.get_through_prototype row' column = Some (JS.get row' column))
      /\ exists b',
           insert 0 Recorder.two_rows Recorder.users_world
           = (Ok 1, returned Recorder.users_world b')
           /\ sql b' = "INSERT INTO " +:+ JS.quoted "users" +:+ " ("
                         +:+ JS.join ", " (map JS.quoted ["name"; "email"]) +:+ ") VALUES"
                         +:+ Compiled.values_list
                               (Compiled.grid ["name"; "email"] Recorder.two_rows) 2 2
           /\ params b' = Compiled.defined (Compiled.grid ["name"; "email"] Recorder.two_rows))
  /\ exists b',
       update 0 [("name", JS.Str "A"); ("email", JS.Undefined); ("age", JS.Num 3)]
         Recorder.users_world
       = (Ok 1, returned Recorder.users_world b')
       /\ sql b' = "UPDATE " +:+ JS.quoted "users" +:+ " SET"
                     +:+ Compiled.set_list
                           [("name", JS.Str "A"); ("email", JS.Undefined); ("age", JS.Num 3)]
       /\ params b' = Compiled.defined [JS.Str "A"; JS.Undefined; JS.Num 3].
Proof.
  do 2 (split; [reflexivity|]).
  apply (undefined_takes_no_placeholder Recorder.users_world 0
           (mkBuilder Recorder.connection Recorder.users EmptyString [])
           [("name", JS.Str "A"); ("email", JS.Str "a@x.com")]
           [[("name", JS.Str "B"); ("email", JS.Undefined)]]
           [("name", JS.Str "A"); ("email", JS.Undefined); ("age", JS.Num 3)]);
    reflexivity.
Defined.

(** C2 as stated fails on its own example: the groups follow [VALUES]
without a space, so the text [VALUES ($1, $2), ($3, NULL)] does not occur
in the statement.  (The name of the second row is the third parameter.) *)
Lemma insert_example_has_no_space_after_VALUES :
  let r := insert 0 Recorder.two_rows Recorder.users_world in
  fst r = Ok 1
  /\ sql_at (snd r) 1
     = Some ("INSERT INTO " +:+ JS.quoted "users" +:+ " (" +:+ JS.quoted "name" +:+ ", "
             +:+ JS.quoted "email" +:+ ") VALUES($1, $2), ($3, NULL)")
  /\ params_at (snd r) 1 = Some [JS.Str "A"; JS.Str "a@x.com"; JS.Str "B"]
  /\ JS.includes "VALUES ($1, $2), ($3, NULL)" <$> sql_at (snd r) 1 = Some false.
Proof. vm_compute. repeat split; reflexivity. Qed.

(** The numbering of the same example, and of an update. *)
Example values_list_example :
  Compiled.values_list (Compiled.grid ["name"; "email"] Recorder.two_rows) 2 2
  = "($1, $2), ($3, NULL)".
Proof. reflexivity. Qed.

Example set_list_example :
  Compiled.set_list [("name", JS.Str "A"); ("email", JS.Undefined); ("age", JS.Num 3)]
  = " " +:+ JS.quoted "name" +:+ " = $1,  " +:+ JS.quoted "email" +:+ " = NULL,  "
      +:+ JS.quoted "age" +:+ " = $2".
Proof. reflexivity. Qed.

(** [where] on a builder that holds an UPDATE statement and one
parameter. *)
Lemma where_appends_suffix_witness :
  heap Recorder.updating_world !! 0
  = Some (mkBuilder Recorder.connection Recorder.users
            ("UPDATE " +:+ JS.quoted "users" +:+ " SET " +:+ JS.quoted "name" +:+ " = $1")
            [JS.Str "A"])
  /\ exists b1,
       where_ 0 Recorder.id_is_1 Recorder.updating_world = (Ok 1, logged Recorder.updating_world b1)
       /\ sql b1 = "UPDATE " +:+ JS.quoted "users" +:+ " SET " +:+ JS.quoted "name" +:+ " = $1"
                     +:+ " WHERE" +:+ "(t) => " +:+ JS.quoted "users" +:+ ".id === 1"
       /\ params b1 = []
       /\ heap (logged Recorder.updating_world b1) !! 0
          = Some (mkBuilder Recorder.connection Recorder.users
                    ("UPDATE " +:+ JS.quoted "users" +:+ " SET " +:+ JS.quoted "name" +:+ " = $1")
                    [JS.Str "A"])
       /\ forall q : JS.function, exists b2,
            where_ 1 q (logged Recorder.updating_world b1) = (Ok 2, logged (logged Recorder.updating_world b1) b2)
            /\ sql b2 = "UPDATE " +:+ JS.quoted "users" +:+ " SET " +:+ JS.quoted "name" +:+ " = $1"
                          +:+ " WHERE" +:+ "(t) => " +:+ JS.quoted "users" +:+ ".id === 1"
                          +:+ " WHERE"
                          +:+ JS.replace_t_dot (JS.toString q) (JS.quoted "users" +:+ ".").
Proof.
  split; [reflexivity|].
  apply (where_appends_suffix Recorder.updating_world 0
           (mkBuilder Recorder.connection Recorder.users
              ("UPDATE " +:+ JS.quoted "users" +:+ " SET " +:+ JS.quoted "name" +:+ " = $1")
              [JS.Str "A"])
           Recorder.id_is_1).
  reflexivity.
Defined.

(** C3 (the code departs from it).  On a builder that holds
[UPDATE "users" SET "name" = $1] with the parameter ["A"],
[where((t) => t.id === 1)] returns a builder whose text continues with
[ WHERE(t) => "users".id === 1]: the keyword runs into the printed source
of the arrow function, there is no [ WHERE ] followed by a condition, and
the column is not written as a quoted reference.  The builder returned
has an empty parameter list, so the [$1] of its text has no value; the
receiver keeps its text and its parameter. *)
Theorem where_emits_function_source_without_parameters :
  let S := "UPDATE " +:+ JS.quoted "users" +:+ " SET " +:+ JS.quoted "name" +:+ " = $1" in
  let r := where_ 0 Recorder.id_is_1 Recorder.updating_world in
  JS.toString Recorder.id_is_1 = "(t) => t.id === 1"
  /\ sql_at Recorder.updating_world 0 = Some S
  /\ params_at Recorder.updating_world 0 = Some [JS.Str "A"]
  /\ fst r = Ok 1
  /\ sql_at (snd r) 1 = Some (S +:+ " WHERE(t) => " +:+ JS.quoted "users" +:+ ".id === 1")
  /\ String.prefix (S +:+ " WHERE ") <$> sql_at (snd r) 1 = Some false
  /\ JS.includes (JS.quoted "users" +:+ "." +:+ JS.quoted "id") <$> sql_at (snd r) 1
     = Some false
  /\ params_at (snd r) 1 = Some []
  /\ sql_at (snd r) 0 = Some S
  /\ params_at (snd r) 0 = Some [JS.Str "A"].
Proof. vm_compute. repeat split; reflexivity. Qed.

(** The table name is the replacement template of [replace], not a
literal text: in a table named [a$&b] the pattern [$&] stands for the
matched [t.], so the text that replaces [t.] is not the quoted table name
and a dot. *)
Example where_table_name_is_a_template :
  JS.replace_t_dot "t => t.id > 0" (JS.quoted "a$&b" +:+ ".")
  = "t => " +:+ String (ascii_of_nat 34) "at.b" +:+ String (ascii_of_nat 34) ".id > 0".
Proof. reflexivity. Qed.

(** C4 (the code departs from it).  On the entity [comments] with the
columns [id], [content] and [postId], the chain
[select("id","content").where(c => c.postId == 5).orderBy("id","asc").limit(10)]
returns a builder with the text
[SELECT "id", "content" FROM "comments" WHEREc => c.postId == 5 ORDER BY "id" ASC LIMIT 10]
and an empty parameter list.  The text is not the stated
[SELECT "id", "content" FROM "comments" WHERE "comments"."postId" == 5 ORDER BY "id" ASC LIMIT 10]:
the keyword runs into the printed source of the arrow function, and no
reference ["comments"."postId"] occurs in it. *)
Theorem comments_chain_emits_predicate_source :
  let stated := "SELECT " +:+ JS.quoted "id" +:+ ", " +:+ JS.quoted "content"
                  +:+ " FROM " +:+ JS.quoted "comments"
                  +:+ " WHERE " +:+ JS.quoted "comments" +:+ "." +:+ JS.quoted "postId"
                  +:+ " == 5 ORDER BY " +:+ JS.quoted "id" +:+ " ASC LIMIT 10" in
  let r := Recorder.comments_chain Recorder.connection Recorder.comments Recorder.empty_world in
  JS.toString Recorder.postId_is_5 = "c => c.postId == 5"
  /\ fst r = Ok 4
  /\ sql_at (snd r) 4
     = Some ("SELECT " +:+ JS.quoted "id" +:+ ", " +:+ JS.quoted "content"
             +:+ " FROM " +:+ JS.quoted "comments"
             +:+ " WHEREc => c.postId == 5 ORDER BY " +:+ JS.quoted "id" +:+ " ASC LIMIT 10")
  /\ String.eqb stated <$> sql_at (snd r) 4 = Some false
  /\ JS.includes (JS.quoted "comments" +:+ "." +:+ JS.quoted "postId") <$> sql_at (snd r) 4
     = Some false
  /\ params_at (snd r) 4 = Some []
  /\ session (snd r) = [].
Proof. vm_compute. repeat split; reflexivity. Qed.

(** With the parameter named [t] the table name is substituted, and the
text is not the stated one either. *)
Example where_with_parameter_t :
  sql_at (snd (where_ 0 (JS.mkFunction "t => t.postId == 5")
                 (Recorder.world Recorder.comments
                    ("SELECT " +:+ JS.quoted "id" +:+ " FROM " +:+ JS.quoted "comments") [])))
    1
  = Some ("SELECT " +:+ JS.quoted "id" +:+ " FROM " +:+ JS.quoted "comments"
          +:+ " WHEREt => " +:+ JS.quoted "comments" +:+ ".postId == 5").
Proof. reflexivity. Qed.

(** C8 on the recording driver: the transaction that [beginTransaction]
resolves with after sending [BEGIN]. *)
Lemma transaction_rejects_begin_and_close_witness :
  beginTransaction Recorder.connection []
  = (Ok Recorder.transaction, [Recorder.mkSent "BEGIN" None])
  /\ forall s1 : Recorder.Session,
       beginTransaction (asConnection Recorder.transaction) s1
       = (Throw (Error "Cannot begin a nested transaction"), s1)
       /\ close (asConnection Recorder.transaction) s1
          = (Throw (Error "Cannot close a transaction"), s1)
       /\ (forall sql ps,
             query (asConnection Recorder.transaction) sql ps s1
             = query Recorder.connection sql ps s1)
       /\ commit Recorder.transaction s1
          = (query Recorder.connection "COMMIT" None ;;; ret tt) s1
       /\ rollback Recorder.transaction s1
          = (query Recorder.connection "ROLLBACK" None ;;; ret tt) s1.
Proof.
  split; [reflexivity|].
  apply (transaction_rejects_begin_and_close
           Recorder.client_connect Recorder.client_query Recorder.client_end
           Recorder.pg [] [Recorder.mkSent "BEGIN" None] Recorder.transaction).
  reflexivity.
Defined.

(** After the rejected calls the transaction still commits: the driver
receives [COMMIT]. *)
Example commit_after_rejected_close :
  (try_catch (close (asConnection Recorder.transaction)) (fun _ => ret tt) ;;;
   commit Recorder.transaction) []
  = (Ok tt, [Recorder.mkSent "COMMIT" None]).
Proof. reflexivity. Qed.

(** C9, as amended, at a [leftJoin] on a builder that holds a statement and
one parameter. *)
Lemma methods_allocate_and_keep_receiver_witness :
  heap Recorder.updating_world !! 0
  = Some (mkBuilder Recorder.connection Recorder.users
            ("UPDATE " +:+ JS.quoted "users" +:+ " SET " +:+ JS.quoted "name" +:+ " = $1")
            [JS.Str "A"])
  /\ exists b' w',
       invoke 0 (LeftJoin Recorder.comments (JS.mkFunction "(t, u) => t.id === u.postId"))
         Recorder.updating_world
       = (Ok 1, w')
       /\ heap w' = heap Recorder.updating_world ++ [b']
       /\ session w' = session Recorder.updating_world
       /\ 0 <> 1
       /\ heap w' !! 0
          = Some (mkBuilder Recorder.connection Recorder.users
                    ("UPDATE " +:+ JS.quoted "users" +:+ " SET " +:+ JS.quoted "name" +:+ " = $1")
                    [JS.Str "A"])
       /\ connection b' = Recorder.connection
       /\ entity b' = spread_entity Recorder.users Recorder.comments.
Proof.
  split; [reflexivity|].
  apply (methods_allocate_and_keep_receiver Recorder.updating_world 0
           (mkBuilder Recorder.connection Recorder.users
              ("UPDATE " +:+ JS.quoted "users" +:+ " SET " +:+ JS.quoted "name" +:+ " = $1")
              [JS.Str "A"])
           (LeftJoin Recorder.comments (JS.mkFunction "(t, u) => t.id === u.postId"))).
  reflexivity.
Defined.

(** C9 as stated fails: the builder [innerJoin] returns is bound to the
joined entity's table, not to the receiver's entity; and [insert]
without rows returns no builder. *)
Lemma innerJoin_binds_another_entity :
  let r := innerJoin 0 Recorder.comments (JS.mkFunction "(t, u) => t.id === u.postId")
             Recorder.users_world in
  fst r = Ok 1
  /\ entity_at (snd r) 0 = Some Recorder.users
  /\ entity_at (snd r) 1 = Some Recorder.comments
  /\ tableName Recorder.comments <> tableName Recorder.users
  /\ fst (insert 0 [] Recorder.users_world)
     = Throw (TypeError "Cannot convert undefined or null to object").
Proof. repeat split; try reflexivity. discriminate. Qed.

(** C10 on a fresh builder for [users]. *)
Lemma insert_needs_a_row_witness :
  heap Recorder.users_world !! 0
  = Some (mkBuilder Recorder.connection Recorder.users EmptyString [])
  /\ (@nil JS.object) !! 0 = None
  /\ (exists w',
        insert 0 [] Recorder.users_world
        = (Throw (TypeError "Cannot convert undefined or null to object"), w'))
  /\ forall (row : JS.object) rest,
       (row :: rest) !! 0 = Some row
       /\ exists qb w', insert 0 (row :: rest) Recorder.users_world = (Ok qb, w').
Proof.
  split; [reflexivity|].
  apply (insert_needs_a_row Recorder.users_world 0
           (mkBuilder Recorder.connection Recorder.users EmptyString [])).
  reflexivity.
Defined.

(** C5 (the code departs from it).  [findById(1)] on a repository of
[users] builds a SELECT builder and a WHERE builder and drops both; the
statement the driver receives is the empty text with no parameters, and
the value [1] occurs nowhere.  The first row of the answer is returned. *)
Theorem findById_executes_the_empty_builder :
  let r := PgRepository.findById
             (PgRepository.mkRepository Recorder.connection Recorder.users)
             (JS.Num 1) Recorder.empty_world in
  fst r = Ok (Some [("id", JS.Num 7)])
  /\ session (snd r) = [Recorder.mkSent EmptyString (Some [])]
  /\ sql_at (snd r) 0 = Some EmptyString
  /\ sql_at (snd r) 1
     = Some ("SELECT " +:+ JS.quoted "id" +:+ ", " +:+ JS.quoted "name" +:+ ", "
             +:+ JS.quoted "email" +:+ " FROM " +:+ JS.quoted "users")
  /\ sql_at (snd r) 2 = Some (" WHERE(t) => " +:+ JS.quoted "users" +:+ ".id === id").
Proof. vm_compute. repeat split; reflexivity. Qed.

(** C6 (the code departs from it).  [delete(t => t.id === 1)] on a
repository of [users] sends the empty text, not a DELETE, and returns
[undefined], although the driver reports three affected rows: it reads
[rowCount] off the row array. *)
Theorem delete_executes_the_empty_builder :
  let r := PgRepository.delete
             (PgRepository.mkRepository Recorder.connection Recorder.users)
             Recorder.id_is_1 Recorder.empty_world in
  fst r = Ok JS.Undefined
  /\ session (snd r) = [Recorder.mkSent EmptyString (Some [])]
  /\ rowCount Recorder.answer = JS.Num 3
  /\ sql_at (snd r) 1 = Some ("DELETE FROM " +:+ JS.quoted "users").
Proof. vm_compute. repeat split; reflexivity. Qed.

(** [findAll] keeps the builder [select] returns, and sends the SELECT. *)
Example findAll_sends_the_select :
  session (snd (PgRepository.findAll
                  (PgRepository.mkRepository Recorder.connection Recorder.users)
                  Recorder.empty_world))
  = [Recorder.mkSent
       ("SELECT " +:+ JS.quoted "id" +:+ ", " +:+ JS.quoted "name" +:+ ", "
        +:+ JS.quoted "email" +:+ " FROM " +:+ JS.quoted "users")
       (Some [])].
Proof. reflexivity. Qed.

(** * Further properties of the code *)

(** ** The builder *)

Section BuilderFacts.

Context {Session : Type}.

Local Abbreviation World := (@PgQueryBuilder.World Session).
Local Abbreviation builder := (@PgQueryBuilder.builder Session).

Implicit Types (w : World) (b : builder) (this : ref).

(** What a root method returns, as a function of the receiver's connection
and entity alone. *)
Lemma root_run w this b (m : call) :
  heap w !! this = Some b ->
  Chains.is_root m = true ->
  exists f : @Connection Session -> Entity -> builder,
    invoke this m w = (Chains.result m w, returned w (f (connection b) (entity b)))
    /\ forall w' this' b',
         heap w' !! this' = Some b' ->
         invoke this' m w' = (Chains.result m w', returned w' (f (connection b') (entity b'))).
Proof.
  intros Hthis Hm.
  destruct m as [columns|[|row rest]|o| |other on|other on| | | |]; try discriminate;
    cbn [invoke Chains.result].
  - exists (fun c e => mkBuilder c e (Compiled.select_sql e columns) []).
    split; [|intros w' this' b' H']; now apply select_run.
  - exists (fun c e => mkBuilder c e EmptyString []).
    split; [|intros w' this' b' H']; now apply insert_nothing_run.
  - exists (fun c e => mkBuilder c e (Compiled.insert_sql e (JS.keys row) (row :: rest))
                         (Compiled.insert_params (JS.keys row) (row :: rest))).
    split; [|intros w' this' b' H']; now apply insert_run.
  - exists (fun c e => mkBuilder c e (Compiled.update_sql e o) (Compiled.update_params o)).
    split; [|intros w' this' b' H']; now apply update_run.
  - exists (fun c e => mkBuilder c e (Compiled.delete_sql e) []).
    split; [|intros w' this' b' H']; now apply delete_run.
  - exists (fun c e => mkBuilder c (spread_entity e other)
                         (Compiled.join_sql " INNER JOIN " e other on) []).
    split; [|intros w' this' b' H']; now apply join_with_run.
  - exists (fun c e => mkBuilder c (spread_entity e other)
                         (Compiled.join_sql " LEFT JOIN " e other on) []).
    split; [|intros w' this' b' H']; now apply join_with_run.
Qed.

(** X1.  The methods that start a statement ([select], [insert], [update],
[delete], [innerJoin], [leftJoin]) do not look at the receiver's text or
parameters: called with the same arguments on two receivers that have the
same connection and entity, they construct equal builders, whatever the
two receivers hold. *)
Theorem root_methods_ignore_receiver_statement w1 w2 this1 this2 b1 b2 (m : call) :
  heap w1 !! this1 = Some b1 ->
  heap w2 !! this2 = Some b2 ->
  connection b1 = connection b2 ->
  entity b1 = entity b2 ->
  Chains.is_root m = true ->
  exists b',
    invoke this1 m w1 = (Chains.result m w1, returned w1 b')
    /\ invoke this2 m w2 = (Chains.result m w2, returned w2 b').
Proof.
  intros H1 H2 Hc He Hm.
  destruct (root_run w1 this1 b1 m H1 Hm) as (f & Hrun & Hany).
  exists (f (connection b1) (entity b1)). split; [exact Hrun|].
  rewrite Hc, He. now apply Hany.
Qed.

(** What a modifier returns. *)
Lemma modifier_run w this b (m : call) :
  heap w !! this = Some b ->
  Chains.is_modifier m = true ->
  exists w',
    invoke this m w = (Ok (length (heap w)), w')
    /\ heap w' = heap w ++ [mkBuilder (connection b) (entity b)
                              (sql b +:+ Chains.suffix (entity b) m) []]
    /\ session w' = session w.
Proof.
  intros Hthis Hm.
  destruct m as [| | | | | |p|column d|count|count]; try discriminate;
    cbn [invoke Chains.suffix]; eexists.
  - rewrite (where_run w this b p Hthis). repeat split.
  - rewrite (orderBy_run w this b column d Hthis). repeat split.
  - rewrite (limit_run w this b count Hthis). repeat split.
  - rewrite (offset_run w this b count Hthis). repeat split.
Qed.

Lemma chain_modifiers w : forall (ms : list call) this b,
  heap w !! this = Some b ->
  forallb Chains.is_modifier ms = true ->
  ms <> [] ->
  exists w',
    Chains.chain this ms w = (Ok (length (heap w) + length ms - 1), w')
    /\ (exists added, heap w' = heap w ++ added)
    /\ heap w' !! (length (heap w) + length ms - 1)
       = Some (mkBuilder (connection b) (entity b)
                 (sql b +:+ foldr String.append EmptyString (map (Chains.suffix (entity b)) ms))
                 [])
    /\ session w' = session w.
Proof.
  intros ms. revert w.
  induction ms as [|m ms IH]; intros w this b Hthis Hms Hne; [contradiction|].
  cbn [forallb] in Hms. apply andb_prop in Hms as [Hm Hms].
  destruct (modifier_run w this b m Hthis Hm) as (w1 & Hrun & Hheap & Hsess).
  cbn [Chains.chain]. run Hrun.
  destruct ms as [|m' ms].
  - cbn [Chains.chain length map foldr]. exists w1. unfold ret.
    rewrite Nat.add_1_r, Nat.sub_1_r. cbn [Nat.pred].
    repeat split; [eauto | | exact Hsess].
    rewrite Hheap, append_empty_r. now apply list_lookup_middle.
  - assert (heap w1 !! length (heap w) = Some (mkBuilder (connection b) (entity b)
              (sql b +:+ Chains.suffix (entity b) m) [])) as H1
      by (rewrite Hheap; now apply list_lookup_middle).
    destruct (IH w1 _ _ H1 Hms ltac:(discriminate)) as (w2 & Hrun2 & [added Hadd] & Hlast & Hs2).
    exists w2. rewrite Hrun2.
    assert (length (heap w1) = S (length (heap w))) as Hlen
      by (rewrite Hheap, length_app; cbn; lia).
    rewrite Hlen in *.
    replace (S (length (heap w)) + length (m' :: ms) - 1)
      with (length (heap w) + length (m :: m' :: ms) - 1) in * by (cbn; lia).
    repeat split.
    + exists ([mkBuilder (connection b) (entity b)
                 (sql b +:+ Chains.suffix (entity b) m) []] ++ added).
      now rewrite Hadd, Hheap, <- app_assoc.
    + rewrite Hlast. cbn [connection entity sql map foldr].
      now rewrite append_assoc.
    + congruence.
Qed.

(** X2.  A chain of one or more modifiers ([where], [orderBy], [limit],
[offset], in any order and number), the counts of [limit] and [offset]
being integers between [-(2^53 - 1)] and [2^53 - 1] (which a template
literal prints as their decimal numeral), on a receiver with text [S]
ends in a builder whose text is [S] followed by the modifiers' suffixes
in call order, whose connection and entity are the receiver's, and whose
parameter list is empty; the builders that were in the heap, the receiver
among them, stay as they were, and nothing is sent to the driver. *)
Theorem modifier_chain_appends_suffixes w this b (m : call) (ms : list call) :
  heap w !! this = Some b ->
  forallb Chains.is_modifier (m :: ms) = true ->
  forallb Chains.safe_count (m :: ms) = true ->
  exists w',
    Chains.chain this (m :: ms) w = (Ok (length (heap w) + length ms), w')
    /\ heap w' !! (length (heap w) + length ms)
       = Some (mkBuilder (connection b) (entity b)
                 (sql b +:+ foldr String.append EmptyString
                              (map (Chains.suffix (entity b)) (m :: ms)))
                 [])
    /\ (forall l b0, heap w !! l = Some b0 -> heap w' !! l = Some b0)
    /\ session w' = session w.
Proof.
  intros Hthis Hms _.
  destruct (chain_modifiers w (m :: ms) this b Hthis Hms ltac:(discriminate))
    as (w' & Hrun & [added Hadd] & Hlast & Hs).
  replace (length (heap w) + length (m :: ms) - 1) with (length (heap w) + length ms)
    in * by (cbn; lia).
  exists w'. repeat split; try assumption.
  intros l b0 Hl. rewrite Hadd. now apply lookup_app_l_Some.
Qed.

(** X3.  [execute] hands the receiver's text and parameters to the
connection's [query], once: when [query] resolves, [execute] resolves
with the rows of the result; when [query] throws, [execute] throws the
same exception; either way the heap and the console are as before and the
driver is in the state [query] left it in. *)
Theorem execute_passes_statement_through w this b :
  heap w !! this = Some b ->
  (forall result s',
      query (connection b) (sql b) (Some (params b)) (session w) = (Ok result, s') ->
      execute this w = (Ok (rows result), mkWorld (heap w) s' (console w)))
  /\ (forall e s',
      query (connection b) (sql b) (Some (params b)) (session w) = (Throw e, s') ->
      execute this w = (Throw e, mkWorld (heap w) s' (console w))).
Proof.
  intros Hthis. split; intros x s' Hq; rewrite (execute_run w this b Hthis), Hq; reflexivity.
Qed.

Lemma agree_row_values ks (r r' : JS.object) :
  Chains.agree_on ks r r' -> Compiled.row_values ks r = Compiled.row_values ks r'.
Proof.
  unfold Chains.agree_on, Compiled.row_values.
  induction 1 as [|k ks Hk _ IH]; [reflexivity|]. cbn. now rewrite Hk, IH.
Qed.

Lemma agree_groups ks (rows1 rows2 : list JS.object) :
  Forall2 (Chains.agree_on ks) rows1 rows2 ->
  forall n, Compiled.groups ks n rows1 = Compiled.groups ks n rows2.
Proof.
  induction 1 as [|r r' rows1 rows2 Hr _ IH]; intros n; [reflexivity|].
  cbn [Compiled.groups]. now rewrite (agree_row_values _ _ _ Hr), IH.
Qed.

Lemma agree_params ks (rows1 rows2 : list JS.object) :
  Forall2 (Chains.agree_on ks) rows1 rows2 ->
  Compiled.insert_params ks rows1 = Compiled.insert_params ks rows2.
Proof.
  unfold Compiled.insert_params.
  induction 1 as [|r r' rows1 rows2 Hr _ IH]; [reflexivity|].
  cbn [flat_map]. now rewrite (agree_row_values _ _ _ Hr), IH.
Qed.

(** X4.  [insert] reads the rows after the first only under the first
row's keys: two batches with the same first row whose later rows hold the
same values under those keys compile to the same builder, when in both
batches no read of such a key goes to [Object.prototype] (every row has
the key as its own property, or the key is not a name of
[Object.prototype]).  A key the first row does not have is ignored in
every later row. *)
Theorem insert_reads_only_first_row_keys w this b (row : JS.object) (rest rest' : list JS.object) :
  heap w !! this = Some b ->
  Compiled.own_reads (JS.keys row) (row :: rest) = true ->
  Compiled.own_reads (JS.keys row) (row :: rest') = true ->
  Forall2 (Chains.agree_on (JS.keys row)) rest rest' ->
  insert this (row :: rest) w = insert this (row :: rest') w.
Proof.
  intros Hthis _ _ Hrest.
  assert (Forall2 (Chains.agree_on (JS.keys row)) (row :: rest) (row :: rest')) as Hall.
  { constructor; [|exact Hrest]. unfold Chains.agree_on. now apply Forall_true. }
  rewrite (insert_run w this b row rest Hthis), (insert_run w this b row rest' Hthis).
  unfold Compiled.insert_sql.
  now rewrite (agree_groups _ _ _ Hall 0), (agree_params _ _ _ Hall).
Qed.

(** X5.  A [where] called on the builder a join returned qualifies [t.]
with the table name of the joined entity, when that entity has one: the
join merged the two entities, and the joined entity's [tableName]
replaced the receiver's. *)
Theorem where_after_join_uses_joined_table w this b (other : Entity) (on p : JS.function) n :
  heap w !! this = Some b ->
  tableName other = JS.Present n ->
  exists w',
    (qb <- innerJoin this other on ;; where_ qb p) w = (Ok (S (length (heap w))), w')
    /\ sql_at w' (S (length (heap w)))
       = Some (Compiled.join_sql " INNER JOIN " (entity b) other on
               +:+ " WHERE"
               +:+ JS.replace_t_dot (JS.toString p)
                     (JS.quoted (JS.string_of_optional n) +:+ ".")).
Proof.
  intros Hthis Hn. unfold innerJoin.
  run (join_with_run " INNER JOIN " w this b other on Hthis).
  rewrite (where_run _ _ _ p (lookup_returned w _)).
  rewrite length_returned. eexists. split; [reflexivity|].
  unfold sql_at. rewrite <- (length_returned w) at 1. rewrite lookup_logged.
  cbn [fmap option_fmap option_map sql entity].
  unfold Compiled.where_sql, where_condition, table_text, spread_entity.
  cbn [tableName]. rewrite Hn. reflexivity.
Qed.

(** A subject without the characters [t.] is left as it is. *)
Lemma replace_t_dot_absent template : forall s before,
  JS.includes "t." s = false ->
  JS.replace_t_dot_from template before s = s.
Proof.
  induction s as [|a s IH]; intros before H; [reflexivity|].
  cbn [JS.includes] in H. apply orb_false_elim in H as [Hp Hs].
  destruct s as [|c s]; [reflexivity|].
  cbn [JS.replace_t_dot_from].
  assert (Ascii.eqb a "t" && Ascii.eqb c "." = false) as ->.
  { destruct (Ascii.eqb_spec a "t") as [->|]; [|reflexivity].
    destruct (Ascii.eqb_spec c ".") as [->|]; [|reflexivity].
    destruct s; discriminate Hp. }
  f_equal. now apply IH.
Qed.

(** X6.  When the printed source of the predicate does not contain the
characters [t.] (its parameter has another name), [where] appends the
source as it is after [ WHERE]: nothing is qualified with the table. *)
Theorem where_appends_other_parameter_verbatim w this b (p : JS.function) :
  heap w !! this = Some b ->
  JS.includes "t." (JS.toString p) = false ->
  exists b1,
    where_ this p w = (Ok (length (heap w)), logged w b1)
    /\ sql b1 = sql b +:+ " WHERE" +:+ JS.toString p.
Proof.
  intros Hthis Hp. eexists. split; [exact (where_run w this b p Hthis)|].
  cbn [sql]. unfold Compiled.where_sql, where_condition, JS.replace_t_dot.
  now rewrite (replace_t_dot_absent _ _ _ Hp).
Qed.

End BuilderFacts.

(** ** The repository *)

Section RepositoryFacts.

Context {Session : Type}.

Local Abbreviation World := (@PgQueryBuilder.World Session).
Local Abbreviation builder := (@PgQueryBuilder.builder Session).

Implicit Types (w : World) (b : builder) (this : @PgRepository.repository Session).

(** The last two statements of every repository method. *)
Lemma execute_then {A} (f : list JS.object -> A) w l b :
  heap w !! l = Some b ->
  (result <- execute l ;; ret (f result)) w
  = (let (r, s') := query (connection b) (sql b) (Some (params b)) (session w) in
     (resolve f r, mkWorld (heap w) s' (console w))).
Proof.
  intros H. unfold bind. rewrite (execute_run w l b H).
  destruct (query _ _ _ _) as [[r|e|] s']; reflexivity.
Qed.

(** The builder a repository constructs first. *)
Local Abbreviation fresh this :=
  (mkBuilder (PgRepository.connection this) (PgRepository.entity this) EmptyString []).

(** X7.  [repository.insert] with at least one row, no read of a key of
the first row in a row going to [Object.prototype], sends the connection
the INSERT statement the builder compiles for the rows, with its
parameters, once, and resolves with the rows of the answer; an exception
of the connection comes out unchanged. *)
Theorem repository_insert_sends_compiled_insert this (row : JS.object) rest w :
  Compiled.own_reads (JS.keys row) (row :: rest) = true ->
  PgRepository.insert this (row :: rest) w
  = (let (r, s') :=
       query (PgRepository.connection this)
         (Compiled.insert_sql (PgRepository.entity this) (JS.keys row) (row :: rest))
         (Some (Compiled.insert_params (JS.keys row) (row :: rest)))
         (session w) in
     (resolve (fun rows => rows) r,
      mkWorld
        (heap w ++ [fresh this;
                    mkBuilder (PgRepository.connection this) (PgRepository.entity this)
                      (Compiled.insert_sql (PgRepository.entity this) (JS.keys row) (row :: rest))
                      (Compiled.insert_params (JS.keys row) (row :: rest))])
        s' (console w))).
Proof.
  intros _. unfold PgRepository.insert.
  run (new_run _ _ w).
  run (insert_run _ _ _ row rest (lookup_returned _ _)).
  rewrite (execute_then (fun rows => rows) _ _ _ (lookup_returned _ _)).
  cbn [connection entity sql params session heap console returned].
  destruct (query _ _ _ _) as [r s']. now rewrite <- app_assoc.
Qed.

(** X8.  [repository.insert] without rows throws the TypeError of
[Object.keys(undefined)] and sends nothing to the connection. *)
Theorem repository_insert_without_rows_throws this w :
  exists w',
    PgRepository.insert this [] w
    = (Throw (TypeError "Cannot convert undefined or null to object"), w')
    /\ session w' = session w.
Proof.
  unfold PgRepository.insert. eexists.
  run (new_run _ _ w).
  unfold bind at 1. rewrite (insert_nothing_run _ _ _ (lookup_returned _ _)).
  split; reflexivity.
Qed.

(** What [findAll] runs to when the entity has a column object. *)
Lemma findAll_run this (o : JS.object) w :
  JS.read (columns (PgRepository.entity this)) = Some o ->
  PgRepository.findAll this w
  = (let (r, s') :=
       query (PgRepository.connection this)
         ("SELECT " +:+ JS.join ", " (map JS.quoted (JS.keys o)) +:+ " FROM "
          +:+ JS.quoted (table_text (PgRepository.entity this)))
         (Some []) (session w) in
     (resolve (fun rows => rows) r,
      mkWorld
        (heap w ++ [fresh this;
                    mkBuilder (PgRepository.connection this) (PgRepository.entity this)
                      (Compiled.select_sql (PgRepository.entity this) (JS.keys o)) []])
        s' (console w))).
Proof.
  intros Ho. unfold PgRepository.findAll.
  run (new_run _ _ w). rewrite Ho. cbn [Object_keys]. rewrite bind_ret.
  run (select_run _ _ _ (JS.keys o) (lookup_returned _ _)).
  rewrite (execute_run _ _ _ (lookup_returned _ _)).
  cbn [connection entity sql params session heap console returned].
  unfold Compiled.select_sql.
  destruct (query _ _ _ _) as [[r|e|] s']; cbn [resolve]; now rewrite <- app_assoc.
Qed.

(** X9.  [findAll] on a repository whose entity has a column object sends
the SELECT of the object's keys, in the order of [Object.keys], from the
entity's table, with an empty parameter list, and resolves with the rows
of the answer. *)
Theorem findAll_sends_select_of_all_columns this (o : JS.object) w :
  JS.read (columns (PgRepository.entity this)) = Some o ->
  PgRepository.findAll this w
  = (let (r, s') :=
       query (PgRepository.connection this)
         ("SELECT " +:+ JS.join ", " (map JS.quoted (JS.keys o)) +:+ " FROM "
          +:+ JS.quoted (table_text (PgRepository.entity this)))
         (Some []) (session w) in
     (resolve (fun rows => rows) r,
      mkWorld
        (heap w ++ [fresh this;
                    mkBuilder (PgRepository.connection this) (PgRepository.entity this)
                      (Compiled.select_sql (PgRepository.entity this) (JS.keys o)) []])
        s' (console w))).
Proof.
  intros Ho. unfold PgRepository.findAll.
  run (new_run _ _ w). rewrite Ho. cbn [Object_keys]. rewrite bind_ret.
  run (select_run _ _ _ (JS.keys o) (lookup_returned _ _)).
  rewrite (execute_run _ _ _ (lookup_returned _ _)).
  cbn [connection entity sql params session heap console returned].
  unfold Compiled.select_sql.
  destruct (query _ _ _ _) as [[r|e|] s']; cbn [resolve]; now rewrite <- app_assoc.
Qed.

(** What [findAll] runs to when the entity has no column object. *)
Lemma findAll_without_columns this w :
  JS.read (columns (PgRepository.entity this)) = None ->
  PgRepository.findAll this w
  = (Throw (TypeError "Cannot convert undefined or null to object"), returned w (fresh this)).
Proof.
  intros Ho. unfold PgRepository.findAll.
  rewrite !(bind_ok _ _ _ _ _ (new_run _ _ w)), Ho. reflexivity.
Qed.

(** X10.  On a repository whose entity has no column object
([columns] undefined), [findAll], [findById] and [findOne] throw the
TypeError of [Object.keys(undefined)] after constructing their builder,
and send nothing to the connection. *)
Theorem find_methods_throw_without_columns this (id : JS.value) (condition : JS.function) w :
  JS.read (columns (PgRepository.entity this)) = None ->
  PgRepository.findAll this w
  = (Throw (TypeError "Cannot convert undefined or null to object"), returned w (fresh this))
  /\ PgRepository.findById this id w
     = (Throw (TypeError "Cannot convert undefined or null to object"), returned w (fresh this))
  /\ PgRepository.findOne this condition w
     = (Throw (TypeError "Cannot convert undefined or null to object"), returned w (fresh this)).
Proof.
  intros Ho. unfold PgRepository.findAll, PgRepository.findById, PgRepository.findOne.
  rewrite !(bind_ok _ _ _ _ _ (new_run _ _ w)), Ho.
  repeat split; reflexivity.
Qed.

(** X11.  [repository.update] drops the builders that [update] and
[where] return and executes the builder it constructed first: whatever
the columns and the condition, the connection receives the empty text
with an empty parameter list, and [update] resolves with the rows of the
answer. *)
Theorem repository_update_sends_empty_statement this (o : JS.object) (condition : JS.function) w :
  PgRepository.update this o condition w
  = (let (r, s') := query (PgRepository.connection this) EmptyString (Some []) (session w) in
     (resolve (fun rows => rows) r,
      mkWorld
        (heap w ++ [fresh this;
                    mkBuilder (PgRepository.connection this) (PgRepository.entity this)
                      (Compiled.update_sql (PgRepository.entity this) o)
                      (Compiled.update_params o);
                    mkBuilder (PgRepository.connection this) (PgRepository.entity this)
                      (Compiled.where_sql EmptyString (PgRepository.entity this) condition) []])
        s'
        (console w ++ [LogWhere
                         (mkBuilder (PgRepository.connection this) (PgRepository.entity this)
                            (Compiled.where_sql EmptyString (PgRepository.entity this) condition)
                            [])]))).
Proof.
  unfold PgRepository.update.
  run (new_run _ _ w).
  run (update_run _ _ _ o (lookup_returned _ _)).
  run (where_run _ _ _ condition (lookup_returned_old _ _ _ _ (lookup_returned _ _))).
  rewrite (execute_then (fun rows => rows) _ _ _
             (lookup_logged_old _ _ _ _ (lookup_returned_old _ _ _ _ (lookup_returned _ _)))).
  cbn [connection entity sql params session heap console returned logged].
  destruct (query _ _ _ _) as [r s']. now rewrite <- !app_assoc.
Qed.

(** X12.  [findOne] on a repository whose entity has a column object
likewise executes the builder it constructed first: whatever the
predicate, the connection receives the empty text with an empty parameter
list, and [findOne] resolves with the first row of the answer, or [null]
when there is none. *)
Theorem findOne_sends_empty_statement this (o : JS.object) (condition : JS.function) w :
  JS.read (columns (PgRepository.entity this)) = Some o ->
  PgRepository.findOne this condition w
  = (let (r, s') := query (PgRepository.connection this) EmptyString (Some []) (session w) in
     (resolve head r,
      mkWorld
        (heap w ++ [fresh this;
                    mkBuilder (PgRepository.connection this) (PgRepository.entity this)
                      (Compiled.select_sql (PgRepository.entity this) (JS.keys o)) [];
                    mkBuilder (PgRepository.connection this) (PgRepository.entity this)
                      (Compiled.where_sql EmptyString (PgRepository.entity this) condition) []])
        s'
        (console w ++ [LogWhere
                         (mkBuilder (PgRepository.connection this) (PgRepository.entity this)
                            (Compiled.where_sql EmptyString (PgRepository.entity this) condition)
                            [])]))).
Proof.
  intros Ho. unfold PgRepository.findOne.
  run (new_run _ _ w). rewrite Ho. cbn [Object_keys]. rewrite bind_ret.
  run (select_run _ _ _ (JS.keys o) (lookup_returned _ _)).
  run (where_run _ _ _ condition (lookup_returned_old _ _ _ _ (lookup_returned _ _))).
  rewrite (execute_then head _ _ _
             (lookup_logged_old _ _ _ _ (lookup_returned_old _ _ _ _ (lookup_returned _ _)))).
  cbn [connection entity sql params session heap console returned logged].
  destruct (query _ _ _ _) as [r s']. now rewrite <- !app_assoc.
Qed.

End RepositoryFacts.

(** ** The connection *)

Section ConnectionFacts.

Context {Session Handle : Type}.
Variable client_connect : Handle -> M Session unit.
Variable client_query : Handle -> string -> option (list JS.value) -> M Session QueryResult.

(** X13.  [PgConnection.query] connects the client before every
statement: when [connect] throws, [query] throws the same exception and
the statement never reaches the client; [commit] and [rollback] of a
transaction on that connection fail in the same way, [COMMIT] and
[ROLLBACK] never being sent. *)
Theorem connect_failure_stops_the_statement (c : @PgConnection Handle) e (s s1 : Session) :
  client_connect (client c) s = (Throw e, s1) ->
  (forall sql ps, PgConnection_query client_connect client_query c sql ps s = (Throw e, s1))
  /\ PgTransaction_commit client_connect client_query (mkPgTransaction c) s = (Throw e, s1)
  /\ PgTransaction_rollback client_connect client_query (mkPgTransaction c) s = (Throw e, s1).
Proof.
  intros Hc.
  assert (forall sql ps,
             PgConnection_query client_connect client_query c sql ps s = (Throw e, s1)) as Hq.
  { intros sql ps. unfold PgConnection_query. rewrite try_catch_rethrow.
    unfold bind. now rewrite Hc. }
  split; [exact Hq|].
  unfold PgTransaction_commit, PgTransaction_rollback.
  rewrite !try_catch_rethrow. unfold bind. cbn [connection]. now rewrite !Hq.
Qed.

End ConnectionFacts.

(** ** The metadata registry *)

Section RegistryFacts.

Import Metadata.

(** X14.  The registry only grows.  After any sequence of [Entity] and
[Column] declarations the storage holds the table records it held, then
one table record per [Entity] declaration in declaration order, and the
column records it held, then one per [Column] declaration in declaration
order: nothing is removed, replaced or deduplicated, and the storage
created on first access is the one every later declaration extends. *)
Theorem declarations_accumulate (ds : list declaration) (g : global) :
  tables (fst (getMetadataArgsStorage (fold_left declare ds g)))
  = tables (fst (getMetadataArgsStorage g)) ++ omap declared_table ds
  /\ stored_columns (fst (getMetadataArgsStorage (fold_left declare ds g)))
     = stored_columns (fst (getMetadataArgsStorage g)) ++ omap declared_column ds.
Proof.
  revert g. induction ds as [|d ds IH]; intros g.
  - cbn. now rewrite !app_nil_r.
  - cbn [fold_left]. destruct (IH (declare g d)) as [-> ->].
    destruct d as [n t|options object propertyName], g as [st|];
      cbn; unfold Decorators.Column; rewrite <- ?app_assoc; split; reflexivity.
Qed.

Lemma indexOf_from_found i (a : list nat) x :
  (0 <= i)%Z -> (JS.indexOf_from i a x =? -1)%Z = negb (existsb (Nat.eqb x) a).
Proof.
  revert i. induction a as [|y a IH]; intros i Hi; [reflexivity|].
  cbn [JS.indexOf_from existsb]. rewrite (Nat.eqb_sym x y).
  destruct (Nat.eqb y x).
  - cbn. apply Z.eqb_neq. lia.
  - cbn. apply IH. lia.
Qed.

(** A table is selected by an array of classes exactly when its target
occurs in the array. *)
Lemma selected_many ts t : selected (Many ts) t = existsb (Nat.eqb t) ts.
Proof.
  unfold selected, JS.indexOf. rewrite indexOf_from_found by lia.
  apply negb_involutive.
Qed.

Lemma existsb_same_classes ts ts' t :
  same_classes ts ts' = true ->
  existsb (Nat.eqb t) ts = existsb (Nat.eqb t) ts'.
Proof.
  intros [H1 H2]%andb_prop. rewrite forallb_forall in H1, H2.
  destruct (existsb (Nat.eqb t) ts) eqn:E.
  - apply existsb_exists in E as (x & Hx & ->%Nat.eqb_eq). symmetry. now apply H1.
  - destruct (existsb (Nat.eqb t) ts') eqn:E'; [|reflexivity].
    apply existsb_exists in E' as (x & Hx & ->%Nat.eqb_eq).
    rewrite (H2 _ Hx) in E. discriminate.
Qed.

(** X15.  [build] looks at the requested classes only through membership:
two arrays with the same members, in whatever order and with whatever
repetitions, give the same schemas, one per registered table whose target
is a member, in registration order. *)
Theorem build_depends_on_membership (storage : MetadataArgsStorage) (ts ts' : list nat) :
  same_classes ts ts' = true ->
  build storage (Some ts) = build storage (Some ts')
  /\ map target (build storage (Some ts))
     = List.filter (fun t => existsb (Nat.eqb t) ts) (map target (tables storage)).
Proof.
  intros H. unfold build, filterTables, filterByTarget.
  assert (List.filter (fun table => selected (Many ts) (target table)) (tables storage)
          = List.filter (fun table => selected (Many ts') (target table)) (tables storage)) as E.
  { apply List.filter_ext. intros t. rewrite !selected_many.
    now apply existsb_same_classes. }
  split; [now rewrite E|].
  rewrite map_map. cbn [target]. clear E.
  induction (tables storage) as [|t l IH]; [reflexivity|].
  cbn [List.filter map]. rewrite selected_many.
  destruct (existsb (Nat.eqb (target t)) ts); cbn [map]; now rewrite IH.
Qed.

(** X16.  A [Column] declaration reaches the columns of its own class
only: afterwards [filterColumns] of the declaring class returns what it
returned before followed by the new record, [filterColumns] of any other
class returns what it returned before, and the tables are untouched. *)
Theorem column_declaration_reaches_only_its_class
    (options : option Decorators.ColumnOptions) (object : Decorators.decorated)
    (propertyName : string) (g : global) (t : nat) :
  let before := fst (getMetadataArgsStorage g) in
  let after := fst (getMetadataArgsStorage (Column options object propertyName g)) in
  filterColumns after t
  = filterColumns before t
      ++ (if Nat.eqb (Decorators.constructor object) t
          then [Decorators.ColumnMetadataArgs.mk
                  (Decorators.constructor object)
                  (default propertyName (options ≫= Decorators.name))
                  (Decorators.column_type options object propertyName)]
          else [])
  /\ tables after = tables before.
Proof.
  destruct g as [st|]; cbn; unfold filterColumns, filterByTarget, Decorators.Column;
    cbn [stored_columns]; rewrite ?List.filter_app; cbn;
    destruct (Nat.eqb (Decorators.constructor object) t); split; reflexivity.
Qed.

End RegistryFacts.

(** ** Objects *)

Section ObjectFacts.

Lemma has_keys (o : JS.object) k : JS.has o k = true <-> In k (JS.keys o).
Proof.
  unfold JS.has. rewrite existsb_exists. split.
  - now intros (x & Hx & ->%String.eqb_eq).
  - intros H. exists k. split; [exact H | apply String.eqb_refl].
Qed.

Lemma get_absent (o : JS.object) k : JS.has o k = false -> JS.get o k = JS.Undefined.
Proof.
  unfold JS.has. induction o as [|[k' v'] o IH]; [reflexivity|].
  cbn. rewrite (String.eqb_sym k k').
  destruct (String.eqb k' k); [discriminate | exact IH].
Qed.

Lemma keys_replace_value (o : JS.object) k v : JS.keys (JS.replace_value o k v) = JS.keys o.
Proof.
  unfold JS.keys. induction o as [|[k' v'] o IH]; [reflexivity|].
  cbn. destruct (String.eqb k' k); cbn; [reflexivity | now rewrite IH].
Qed.

Lemma get_replace_value (o : JS.object) k v k' :
  JS.has o k = true ->
  JS.get (JS.replace_value o k v) k' = if String.eqb k k' then v else JS.get o k'.
Proof.
  unfold JS.has. induction o as [|[k0 v0] o IH]; [discriminate|].
  cbn. rewrite (String.eqb_sym k k0). destruct (String.eqb_spec k0 k) as [->|Hne]; cbn.
  - intros _. now destruct (String.eqb k k').
  - intros H. destruct (String.eqb_spec k0 k') as [->|Hne'].
    + destruct (String.eqb_spec k k'); [congruence | reflexivity].
    + now apply IH.
Qed.

Lemma get_insert_index n (o : JS.object) k v k' :
  JS.has o k = false ->
  JS.get (JS.insert_index n k v o) k' = if String.eqb k k' then v else JS.get o k'.
Proof.
  unfold JS.has. induction o as [|[k0 v0] o IH]; [reflexivity|].
  cbn. rewrite (String.eqb_sym k k0). destruct (String.eqb_spec k0 k) as [->|Hne]; cbn;
    [discriminate|].
  intros H.
  destruct (JS.array_index k0) as [n'|]; [destruct (n <? n')%N|]; cbn; try reflexivity.
  destruct (String.eqb_spec k0 k') as [->|Hne'].
  - destruct (String.eqb_spec k k'); [congruence | reflexivity].
  - now apply IH.
Qed.

Lemma get_append (o : JS.object) k v k' :
  JS.has o k = false ->
  JS.get (o ++ [(k, v)]) k' = if String.eqb k k' then v else JS.get o k'.
Proof.
  unfold JS.has. induction o as [|[k0 v0] o IH]; [reflexivity|].
  cbn. rewrite (String.eqb_sym k k0). destruct (String.eqb_spec k0 k) as [->|Hne]; cbn;
    [discriminate|].
  intros H. destruct (String.eqb_spec k0 k') as [->|Hne'].
  - destruct (String.eqb_spec k k'); [congruence | reflexivity].
  - now apply IH.
Qed.

(** Reading after setting. *)
Lemma get_set (o : JS.object) k v k' :
  JS.get (JS.set o k v) k' = if String.eqb k k' then v else JS.get o k'.
Proof.
  unfold JS.set. destruct (JS.has o k) eqn:H.
  - now apply get_replace_value.
  - destruct (JS.array_index k); [now apply get_insert_index | now apply get_append].
Qed.

Lemma keys_insert_index n (o : JS.object) k v :
  Permutation (JS.keys (JS.insert_index n k v o)) (k :: JS.keys o).
Proof.
  unfold JS.keys. induction o as [|[k0 v0] o IH]; [reflexivity|].
  cbn. destruct (JS.array_index k0) as [n'|]; [destruct (n <? n')%N|]; cbn; try reflexivity.
  rewrite IH. apply perm_swap.
Qed.

(** Setting a key adds it once, when it was not there. *)
Lemma keys_set (o : JS.object) k v :
  Permutation (JS.keys (JS.set o k v)) (if JS.has o k then JS.keys o else k :: JS.keys o).
Proof.
  unfold JS.set. destruct (JS.has o k) eqn:H.
  - now rewrite keys_replace_value.
  - destruct (JS.array_index k).
    + apply keys_insert_index.
    + unfold JS.keys. rewrite map_app. cbn. symmetry. apply Permutation_cons_append.
Qed.

Lemma keys_set_named (o : JS.object) k v :
  JS.has o k = false -> JS.array_index k = None ->
  JS.keys (JS.set o k v) = JS.keys o ++ [k].
Proof.
  intros H Hk. unfold JS.set. rewrite H, Hk. unfold JS.keys. now rewrite map_app.
Qed.

Lemma NoDup_keys_set (o : JS.object) k v :
  NoDup (JS.keys o) -> NoDup (JS.keys (JS.set o k v)).
Proof.
  intros Hnd. rewrite keys_set. destruct (JS.has o k) eqn:H; [exact Hnd|].
  constructor; [|exact Hnd].
  intros Hin%list_elem_of_In%has_keys. congruence.
Qed.

End ObjectFacts.

(** ** The data source *)

Section ColumnObjects.

Import DataSource.

Local Abbreviation propertyName := Decorators.ColumnMetadataArgs.propertyName.

Lemma get_fold_add_column n : forall cs (acc : JS.object) (found : option string),
  JS.get acc n = match found with Some t => JS.Str t | None => JS.Undefined end ->
  JS.get (fold_left add_column cs acc) n
  = match fold_left
            (fun found c =>
               if String.eqb (propertyName c) n
               then Some (Decorators.ColumnMetadataArgs.type c) else found)
            cs found with
    | Some t => JS.Str t
    | None => JS.Undefined
    end.
Proof.
  induction cs as [|c cs IH]; intros acc found H; [exact H|].
  cbn [fold_left]. apply IH. unfold add_column. rewrite get_set.
  now destruct (String.eqb (propertyName c) n).
Qed.

Lemma NoDup_fold_add_column : forall cs (acc : JS.object),
  NoDup (JS.keys acc) -> NoDup (JS.keys (fold_left add_column cs acc)).
Proof.
  induction cs as [|c cs IH]; intros acc H; [exact H|].
  cbn [fold_left]. apply IH. now apply NoDup_keys_set.
Qed.

Lemma In_keys_set (o : JS.object) k v k' :
  In k' (JS.keys (JS.set o k v)) <-> k' = k \/ In k' (JS.keys o).
Proof.
  rewrite <- !list_elem_of_In, keys_set.
  destruct (JS.has o k) eqn:H; rewrite ?elem_of_cons, !list_elem_of_In.
  - apply has_keys in H. split; [auto | intros [->|]; auto].
  - reflexivity.
Qed.

Lemma In_keys_fold_add_column n : forall cs (acc : JS.object),
  In n (JS.keys (fold_left add_column cs acc))
  <-> In n (JS.keys acc) \/ In n (map propertyName cs).
Proof.
  induction cs as [|c cs IH]; intros acc; [cbn; tauto|].
  cbn [fold_left map]. rewrite IH. unfold add_column. rewrite In_keys_set. cbn [In].
  intuition congruence.
Qed.

(** Distinct names that are not array indices become the keys, in order. *)
Lemma keys_fold_add_column : forall cs (acc : JS.object),
  NoDup (JS.keys acc ++ map propertyName cs) ->
  Forall (fun n => JS.array_index n = None) (map propertyName cs) ->
  JS.keys (fold_left add_column cs acc) = JS.keys acc ++ map propertyName cs.
Proof.
  induction cs as [|c cs IH]; intros acc Hnd Hidx; [cbn; now rewrite app_nil_r|].
  cbn [fold_left map] in *. inversion Hidx as [|? ? Hc Hcs]; subst.
  assert (JS.has acc (propertyName c) = false) as Hnew.
  { destruct (JS.has acc (propertyName c)) eqn:H; [|reflexivity].
    apply has_keys, list_elem_of_In in H. apply NoDup_app in Hnd as (_ & Hdis & _).
    exfalso. apply (Hdis _ H). left. }
  unfold add_column at 2. rewrite IH.
  - rewrite keys_set_named by assumption. now rewrite <- app_assoc.
  - rewrite keys_set_named by assumption. now rewrite <- app_assoc.
  - exact Hcs.
Qed.

(** X17.  The column object [getRepository] makes of the column records
of a class has one key per property name, however many records name it;
the value under a name is the type of the last record that names it.
Duplicate column declarations collapse, the last type winning. *)
Theorem columns_object_collapses_duplicates (cs : list Decorators.ColumnMetadataArgs.t) (n : string) :
  JS.get (columns_object cs) n
  = match last_type cs n with Some t => JS.Str t | None => JS.Undefined end
  /\ NoDup (JS.keys (columns_object cs))
  /\ (In n (JS.keys (columns_object cs)) <-> In n (map propertyName cs)).
Proof.
  unfold columns_object, last_type. split; [|split].
  - now apply get_fold_add_column.
  - apply NoDup_fold_add_column. constructor.
  - rewrite In_keys_fold_add_column. cbn. tauto.
Qed.

End ColumnObjects.

Section DataSourceFacts.

Import DataSource.

Context {Session Handle : Type}.
Variable client_connect : Handle -> M Session unit.
Variable client_query : Handle -> string -> option (list JS.value) -> M Session QueryResult.
Variable client_end : Handle -> M Session unit.
Variable new_Client : string -> string -> string -> Z -> string -> Handle.

Local Abbreviation propertyName := Decorators.ColumnMetadataArgs.propertyName.
Local Abbreviation initialized options g :=
  (initialize client_connect client_query client_end new_Client
     (fst (DataSource.new (Session := Session) options g))).
Local Abbreviation pg_connection options :=
  (PgConnection_iface client_connect client_query client_end
     (mkPgConnection
        (new_Client (o_database options) (o_host options) (o_password options)
           (o_port options) (o_user options)))).

Lemma find_filter {A} (p q : A -> bool) (l : list A) :
  (forall x, p x = true -> q x = true) ->
  List.find p (List.filter q l) = List.find p l.
Proof.
  intros H. induction l as [|x l IH]; [reflexivity|].
  cbn. destruct (p x) eqn:Hp.
  - rewrite (H x Hp). cbn. now rewrite Hp.
  - destruct (q x); cbn; rewrite ?Hp; exact IH.
Qed.

Lemma find_map {A B} (p : B -> bool) (f : A -> B) (l : list A) :
  List.find p (map f l) = f <$> List.find (fun x => p (f x)) l.
Proof.
  induction l as [|x l IH]; [reflexivity|].
  cbn. destruct (p (f x)); [reflexivity | exact IH].
Qed.

Lemma find_absent_filter {A} (p q : A -> bool) (l : list A) :
  (forall x, p x = true -> q x = false) ->
  List.find p (List.filter q l) = None.
Proof.
  intros H. induction l as [|x l IH]; [reflexivity|].
  cbn. destruct (q x) eqn:Hq; [|exact IH].
  cbn. destruct (p x) eqn:Hp; [|exact IH].
  rewrite (H x Hp) in Hq. discriminate.
Qed.

(** The schema [getRepository] finds for a class that was asked for is
the first table registered for the class, with its columns attached. *)
Lemma find_in_build (storage : Metadata.MetadataArgsStorage) entities (T : nat) :
  listed entities T = true ->
  List.find (fun metadata => Nat.eqb (Metadata.target metadata) T)
    (Metadata.build storage (mixedListToArray entities))
  = (fun t => Metadata.mkEntityMetadataArgs (Metadata.target t) (Metadata.name t)
                (Metadata.type t) (Some (Metadata.filterColumns storage (Metadata.target t))))
    <$> List.find (fun t => Nat.eqb (Metadata.target t) T) (Metadata.tables storage).
Proof.
  unfold listed, Metadata.build. intros H. rewrite find_map. cbn [Metadata.target].
  destruct (mixedListToArray entities) as [classes|]; [|reflexivity].
  unfold Metadata.filterTables, Metadata.filterByTarget. f_equal.
  apply find_filter. intros t ->%Nat.eqb_eq. now rewrite selected_many.
Qed.

(** The schema of a class that was not asked for is not found. *)
Lemma find_unlisted (storage : Metadata.MetadataArgsStorage) entities (T : nat) :
  listed entities T = false ->
  List.find (fun metadata => Nat.eqb (Metadata.target metadata) T)
    (Metadata.build storage (mixedListToArray entities))
  = None.
Proof.
  unfold listed, Metadata.build. intros H. rewrite find_map. cbn [Metadata.target].
  destruct (mixedListToArray entities) as [classes|]; [|discriminate].
  unfold Metadata.filterTables, Metadata.filterByTarget.
  rewrite find_absent_filter; [reflexivity|].
  intros t ->%Nat.eqb_eq. now rewrite selected_many.
Qed.

(** X18.  From declarations to the statement.  Let a data source of type
[postgres] be built over a registry in which the first table registered
for the class [T] is [tbl], the class being among the requested entities
(or none being requested), the columns declared for [T] having distinct
property names none of which is an array index.  After [initialize],
[getRepository(T).findAll()] sends, through a connection on the client
made from the options, the statement [SELECT "n1", ..., "nk" FROM "name"]
with the property names in declaration order and the declared table
name ([undefined] when the table was declared without a name) with an
empty parameter list, and resolves with the rows of the answer. *)
Theorem data_source_findAll_selects_declared_columns
    (options : BaseDataSourceOptions) (g : Metadata.global) (T : nat)
    (tbl : Metadata.EntityMetadataArgs) (w : @PgQueryBuilder.World Session) :
  let storage := fst (Metadata.getMetadataArgsStorage g) in
  let names := map propertyName (Metadata.filterColumns storage T) in
  o_type options = "postgres" ->
  listed (o_entities options) T = true ->
  List.find (fun t => Nat.eqb (Metadata.target t) T) (Metadata.tables storage) = Some tbl ->
  NoDup names ->
  Forall (fun n => JS.array_index n = None) names ->
  exists e added,
    getRepository (initialized options g) T = (Some (pg_connection options), e)
    /\ PgRepository.findAll (PgRepository.mkRepository (pg_connection options) e) w
       = (let (r, s') :=
            query (pg_connection options)
              ("SELECT " +:+ JS.join ", " (map JS.quoted names) +:+ " FROM "
               +:+ JS.quoted (JS.string_of_optional (Metadata.name tbl)))
              (Some []) (session w) in
          (resolve (fun rows => rows) r, mkWorld (heap w ++ added) s' (console w))).
Proof.
  intros storage names Htype Hlisted Hfind Hnd Hidx.
  assert (Metadata.target tbl = T) as HT
    by (apply List.find_some in Hfind as [_ H]; now apply Nat.eqb_eq).
  unfold getRepository, initialize, DataSource.new, buildMetadatas.
  destruct (Metadata.getMetadataArgsStorage g) as [st g'] eqn:Hg.
  cbn [fst type name host port user password database entitiesMetadatas connection].
  rewrite Htype. cbn [String.eqb Ascii.eqb Bool.eqb].
  cbn [fst type name host port user password database entitiesMetadatas connection].
  unfold repository_entity. cbn [entitiesMetadatas].
  rewrite (find_in_build st _ T Hlisted).
  subst storage. cbn [fst] in *. rewrite Hfind. cbn [fmap option_fmap option_map mbind option_bind
    Metadata.name Metadata.columns].
  eexists. eexists. split; [reflexivity|].
  rewrite (findAll_run _ (columns_object (Metadata.filterColumns st (Metadata.target tbl))) w)
    by reflexivity.
  cbn [PgRepository.connection PgRepository.entity].
  unfold columns_object. rewrite keys_fold_add_column; rewrite HT; cbn [JS.keys map app];
    try assumption.
  unfold table_text. cbn [tableName JS.read].
  destruct (query _ _ _ _) as [r s']. reflexivity.
Qed.

(** X19.  A class that is not among the entities the data source was
given has no schema in it, whether or not it is registered:
[getRepository] gives it an entity without table name and without
column object, and [findAll] on that repository throws the TypeError of
[Object.keys(undefined)] without sending anything. *)
Theorem data_source_unlisted_class_has_no_schema
    (options : BaseDataSourceOptions) (g : Metadata.global) (T : nat)
    (w : @PgQueryBuilder.World Session) :
  o_type options = "postgres" ->
  listed (o_entities options) T = false ->
  getRepository (initialized options g) T
  = (Some (pg_connection options),
     mkEntity (JS.Present None) (JS.Present None) JS.Absent)
  /\ exists w',
       PgRepository.findAll
         (PgRepository.mkRepository (pg_connection options)
            (snd (getRepository (initialized options g) T))) w
       = (Throw (TypeError "Cannot convert undefined or null to object"), w')
       /\ session w' = session w.
Proof.
  intros Htype Hlisted.
  assert (getRepository (initialized options g) T
          = (Some (pg_connection options),
             mkEntity (JS.Present None) (JS.Present None) JS.Absent)) as E.
  { unfold getRepository, initialize, DataSource.new, buildMetadatas.
    destruct (Metadata.getMetadataArgsStorage g) as [st g'].
    cbn [fst type name host port user password database entitiesMetadatas connection].
    rewrite Htype. cbn [String.eqb Ascii.eqb Bool.eqb].
    cbn [fst type name host port user password database entitiesMetadatas connection].
    unfold repository_entity. cbn [entitiesMetadatas].
    now rewrite (find_unlisted st _ T Hlisted). }
  split; [exact E|]. rewrite E. cbn [snd].
  eexists. split; [now apply findAll_without_columns | reflexivity].
Qed.

End DataSourceFacts.

(** ** The further properties at concrete inputs *)

(** X1 at a [select] on a fresh builder and on one that holds a statement. *)
Lemma root_methods_ignore_receiver_statement_witness :
  heap Recorder.users_world !! 0
  = Some (mkBuilder Recorder.connection Recorder.users EmptyString [])
  /\ heap Recorder.updating_world !! 0
     = Some (mkBuilder Recorder.connection Recorder.users
               ("UPDATE " +:+ JS.quoted "users" +:+ " SET " +:+ JS.quoted "name" +:+ " = $1")
               [JS.Str "A"])
  /\ Recorder.connection = Recorder.connection
  /\ Recorder.users = Recorder.users
  /\ Chains.is_root (Select ["id"]) = true
  /\ exists b',
       invoke 0 (Select ["id"]) Recorder.users_world = (Ok 1, returned Recorder.users_world b')
       /\ invoke 0 (Select ["id"]) Recorder.updating_world
          = (Ok 1, returned Recorder.updating_world b').
Proof.
  do 5 (split; [reflexivity|]).
  apply (root_methods_ignore_receiver_statement
           Recorder.users_world Recorder.updating_world 0 0
           (mkBuilder Recorder.connection Recorder.users EmptyString [])
           (mkBuilder Recorder.connection Recorder.users
              ("UPDATE " +:+ JS.quoted "users" +:+ " SET " +:+ JS.quoted "name" +:+ " = $1")
              [JS.Str "A"])
           (Select ["id"])); reflexivity.
Defined.

(** X2 at [where(...).orderBy("id", "desc").limit(10).offset(20)]. *)
Lemma modifier_chain_appends_suffixes_witness :
  heap Recorder.updating_world !! 0
  = Some (mkBuilder Recorder.connection Recorder.users
            ("UPDATE " +:+ JS.quoted "users" +:+ " SET " +:+ JS.quoted "name" +:+ " = $1")
            [JS.Str "A"])
  /\ forallb Chains.is_modifier
       [Where Recorder.id_is_1; OrderBy "id" desc; Limit 10; Offset 20] = true
  /\ forallb Chains.safe_count
       [Where Recorder.id_is_1; OrderBy "id" desc; Limit 10; Offset 20] = true
  /\ exists w',
       Chains.chain 0 [Where Recorder.id_is_1; OrderBy "id" desc; Limit 10; Offset 20]
         Recorder.updating_world
       = (Ok 4, w')
       /\ heap w' !! 4
          = Some (mkBuilder Recorder.connection Recorder.users
                    ("UPDATE " +:+ JS.quoted "users" +:+ " SET " +:+ JS.quoted "name" +:+ " = $1"
                     +:+ " WHERE(t) => " +:+ JS.quoted "users" +:+ ".id === 1"
                     +:+ " ORDER BY " +:+ JS.quoted "id" +:+ " DESC LIMIT 10 OFFSET 20")
                    [])
       /\ (forall l b0, heap Recorder.updating_world !! l = Some b0 -> heap w' !! l = Some b0)
       /\ session w' = session Recorder.updating_world.
Proof.
  do 3 (split; [reflexivity|]).
  apply (modifier_chain_appends_suffixes Recorder.updating_world 0
           (mkBuilder Recorder.connection Recorder.users
              ("UPDATE " +:+ JS.quoted "users" +:+ " SET " +:+ JS.quoted "name" +:+ " = $1")
              [JS.Str "A"])
           (Where Recorder.id_is_1) [OrderBy "id" desc; Limit 10; Offset 20]); reflexivity.
Defined.

(** X3 on a builder that holds a statement and a parameter. *)
Lemma execute_passes_statement_through_witness :
  heap Recorder.updating_world !! 0
  = Some (mkBuilder Recorder.connection Recorder.users
            ("UPDATE " +:+ JS.quoted "users" +:+ " SET " +:+ JS.quoted "name" +:+ " = $1")
            [JS.Str "A"])
  /\ (forall result s',
        query Recorder.connection
          ("UPDATE " +:+ JS.quoted "users" +:+ " SET " +:+ JS.quoted "name" +:+ " = $1")
          (Some [JS.Str "A"]) (session Recorder.updating_world) = (Ok result, s') ->
        execute 0 Recorder.updating_world
        = (Ok (rows result),
           mkWorld (heap Recorder.updating_world) s' (console Recorder.updating_world)))
  /\ (forall e s',
        query Recorder.connection
          ("UPDATE " +:+ JS.quoted "users" +:+ " SET " +:+ JS.quoted "name" +:+ " = $1")
          (Some [JS.Str "A"]) (session Recorder.updating_world) = (Throw e, s') ->
        execute 0 Recorder.updating_world
        = (Throw e,
           mkWorld (heap Recorder.updating_world) s' (console Recorder.updating_world))).
Proof.
  split; [reflexivity|].
  apply (execute_passes_statement_through Recorder.updating_world 0
           (mkBuilder Recorder.connection Recorder.users
              ("UPDATE " +:+ JS.quoted "users" +:+ " SET " +:+ JS.quoted "name" +:+ " = $1")
              [JS.Str "A"])).
  reflexivity.
Defined.

(** The statement of that builder reaches the recording driver as it is. *)
Example execute_on_recorder :
  let r := execute 0 Recorder.updating_world in
  fst r = Ok [[("id", JS.Num 7)]]
  /\ session (snd r)
     = [Recorder.mkSent
          ("UPDATE " +:+ JS.quoted "users" +:+ " SET " +:+ JS.quoted "name" +:+ " = $1")
          (Some [JS.Str "A"])].
Proof. split; reflexivity. Qed.

(** X4: a second row with a key the first row does not have. *)
Lemma insert_reads_only_first_row_keys_witness :
  heap Recorder.users_world !! 0
  = Some (mkBuilder Recorder.connection Recorder.users EmptyString [])
  /\ Compiled.own_reads ["name"] [[("name", JS.Str "A")]; [("name", JS.Str "B")]] = true
  /\ Compiled.own_reads ["name"]
       [[("name", JS.Str "A")]; [("name", JS.Str "B"); ("age", JS.Num 3)]] = true
  /\ Forall2 (Chains.agree_on ["name"])
       [[("name", JS.Str "B")]] [[("name", JS.Str "B"); ("age", JS.Num 3)]]
  /\ insert 0 [[("name", JS.Str "A")]; [("name", JS.Str "B")]] Recorder.users_world
     = insert 0 [[("name", JS.Str "A")]; [("name", JS.Str "B"); ("age", JS.Num 3)]]
         Recorder.users_world.
Proof.
  do 3 (split; [reflexivity|]).
  assert (Forall2 (Chains.agree_on ["name"])
            [[("name", JS.Str "B")]] [[("name", JS.Str "B"); ("age", JS.Num 3)]]) as H
    by (repeat constructor).
  split; [exact H|].
  apply (insert_reads_only_first_row_keys Recorder.users_world 0
           (mkBuilder Recorder.connection Recorder.users EmptyString [])
           [("name", JS.Str "A")]
           [[("name", JS.Str "B")]] [[("name", JS.Str "B"); ("age", JS.Num 3)]]);
    [reflexivity | reflexivity | reflexivity | exact H].
Defined.

(** X5: [users] joined with [comments], then [where]. *)
Lemma where_after_join_uses_joined_table_witness :
  heap Recorder.users_world !! 0
  = Some (mkBuilder Recorder.connection Recorder.users EmptyString [])
  /\ tableName Recorder.comments = JS.Present (Some "comments")
  /\ exists w',
       (qb <- innerJoin 0 Recorder.comments (JS.mkFunction "(t, u) => t.id === u.postId") ;;
        where_ qb Recorder.id_is_1) Recorder.users_world
       = (Ok 2, w')
       /\ sql_at w' 2
          = Some ("SELECT * FROM " +:+ JS.quoted "users" +:+ " INNER JOIN "
                  +:+ JS.quoted "comments" +:+ " ON(t, u) => " +:+ JS.quoted "users"
                  +:+ ".id === " +:+ JS.quoted "comments" +:+ ".postId"
                  +:+ " WHERE(t) => " +:+ JS.quoted "comments" +:+ ".id === 1").
Proof.
  do 2 (split; [reflexivity|]).
  apply (where_after_join_uses_joined_table Recorder.users_world 0
           (mkBuilder Recorder.connection Recorder.users EmptyString [])
           Recorder.comments (JS.mkFunction "(t, u) => t.id === u.postId")
           Recorder.id_is_1 (Some "comments")); reflexivity.
Defined.

(** X6 at the predicate [c => c.postId == 5]. *)
Lemma where_appends_other_parameter_verbatim_witness :
  heap Recorder.users_world !! 0
  = Some (mkBuilder Recorder.connection Recorder.users EmptyString [])
  /\ JS.includes "t." (JS.toString Recorder.postId_is_5) = false
  /\ exists b1,
       where_ 0 Recorder.postId_is_5 Recorder.users_world
       = (Ok 1, logged Recorder.users_world b1)
       /\ sql b1 = " WHEREc => c.postId == 5".
Proof.
  do 2 (split; [reflexivity|]).
  apply (where_appends_other_parameter_verbatim Recorder.users_world 0
           (mkBuilder Recorder.connection Recorder.users EmptyString [])
           Recorder.postId_is_5); reflexivity.
Defined.

(** X7 on the repository of [users], at the rows
[{name: "A", email: "a@x.com"}] and [{name: "B", email: undefined}]. *)
Lemma repository_insert_sends_compiled_insert_witness :
  Compiled.own_reads ["name"; "email"] Recorder.two_rows = true
  /\ PgRepository.insert Sample.users_repository Recorder.two_rows Recorder.empty_world
     = (let (r, s') :=
          query Recorder.connection
            (Compiled.insert_sql Recorder.users ["name"; "email"] Recorder.two_rows)
            (Some (Compiled.insert_params ["name"; "email"] Recorder.two_rows))
            [] in
        (resolve (fun rows => rows) r,
         mkWorld
           [mkBuilder Recorder.connection Recorder.users EmptyString [];
            mkBuilder Recorder.connection Recorder.users
              (Compiled.insert_sql Recorder.users ["name"; "email"] Recorder.two_rows)
              (Compiled.insert_params ["name"; "email"] Recorder.two_rows)]
           s' [])).
Proof.
  split; [reflexivity|].
  apply (repository_insert_sends_compiled_insert Sample.users_repository
           [("name", JS.Str "A"); ("email", JS.Str "a@x.com")]
           [[("name", JS.Str "B"); ("email", JS.Undefined)]]
           Recorder.empty_world).
  reflexivity.
Defined.

(** The statement and the parameters of that insert, as the recording
driver receives them. *)
Example repository_insert_on_recorder :
  let r := PgRepository.insert Sample.users_repository Recorder.two_rows Recorder.empty_world in
  fst r = Ok [[("id", JS.Num 7)]]
  /\ session (snd r)
     = [Recorder.mkSent
          ("INSERT INTO " +:+ JS.quoted "users" +:+ " (" +:+ JS.quoted "name" +:+ ", "
           +:+ JS.quoted "email" +:+ ") VALUES($1, $2), ($3, NULL)")
          (Some [JS.Str "A"; JS.Str "a@x.com"; JS.Str "B"])].
Proof. vm_compute. split; reflexivity. Qed.

(** X9 on the repository of [users]. *)
Lemma findAll_sends_select_of_all_columns_witness :
  JS.read (columns (PgRepository.entity Sample.users_repository))
  = Some [("id", JS.Str "int"); ("name", JS.Str "varchar(255)");
          ("email", JS.Str "varchar(255)")]
  /\ PgRepository.findAll Sample.users_repository Recorder.empty_world
     = (let (r, s') :=
          query Recorder.connection
            ("SELECT " +:+ JS.join ", " (map JS.quoted ["id"; "name"; "email"]) +:+ " FROM "
             +:+ JS.quoted "users")
            (Some []) [] in
        (resolve (fun rows => rows) r,
         mkWorld
           [mkBuilder Recorder.connection Recorder.users EmptyString [];
            mkBuilder Recorder.connection Recorder.users
              (Compiled.select_sql Recorder.users ["id"; "name"; "email"]) []]
           s' [])).
Proof.
  split; [reflexivity|].
  apply (findAll_sends_select_of_all_columns Sample.users_repository
           [("id", JS.Str "int"); ("name", JS.Str "varchar(255)");
            ("email", JS.Str "varchar(255)")]
           Recorder.empty_world).
  reflexivity.
Defined.

(** X10 on a repository whose entity has no column object. *)
Lemma find_methods_throw_without_columns_witness :
  JS.read (columns (PgRepository.entity Sample.bare_repository)) = None
  /\ PgRepository.findAll Sample.bare_repository Recorder.empty_world
     = (Throw (TypeError "Cannot convert undefined or null to object"),
        returned Recorder.empty_world
          (mkBuilder Recorder.connection Sample.bare EmptyString []))
  /\ PgRepository.findById Sample.bare_repository (JS.Num 1) Recorder.empty_world
     = (Throw (TypeError "Cannot convert undefined or null to object"),
        returned Recorder.empty_world
          (mkBuilder Recorder.connection Sample.bare EmptyString []))
  /\ PgRepository.findOne Sample.bare_repository Recorder.id_is_1 Recorder.empty_world
     = (Throw (TypeError "Cannot convert undefined or null to object"),
        returned Recorder.empty_world
          (mkBuilder Recorder.connection Sample.bare EmptyString [])).
Proof.
  split; [reflexivity|].
  apply (find_methods_throw_without_columns Sample.bare_repository (JS.Num 1)
           Recorder.id_is_1 Recorder.empty_world).
  reflexivity.
Defined.

(** X12 on the repository of [users]. *)
Lemma findOne_sends_empty_statement_witness :
  JS.read (columns (PgRepository.entity Sample.users_repository))
  = Some [("id", JS.Str "int"); ("name", JS.Str "varchar(255)");
          ("email", JS.Str "varchar(255)")]
  /\ PgRepository.findOne Sample.users_repository Recorder.id_is_1 Recorder.empty_world
     = (let (r, s') := query Recorder.connection EmptyString (Some []) [] in
        (resolve head r,
         mkWorld
           [mkBuilder Recorder.connection Recorder.users EmptyString [];
            mkBuilder Recorder.connection Recorder.users
              (Compiled.select_sql Recorder.users ["id"; "name"; "email"]) [];
            mkBuilder Recorder.connection Recorder.users
              (Compiled.where_sql EmptyString Recorder.users Recorder.id_is_1) []]
           s'
           [LogWhere
              (mkBuilder Recorder.connection Recorder.users
                 (Compiled.where_sql EmptyString Recorder.users Recorder.id_is_1) [])])).
Proof.
  split; [reflexivity|].
  apply (findOne_sends_empty_statement Sample.users_repository
           [("id", JS.Str "int"); ("name", JS.Str "varchar(255)");
            ("email", JS.Str "varchar(255)")]
           Recorder.id_is_1 Recorder.empty_world).
  reflexivity.
Defined.

(** What the recording driver receives from [findOne] and [update]. *)
Example findOne_and_update_on_recorder :
  session (snd (PgRepository.findOne Sample.users_repository Recorder.id_is_1
                  Recorder.empty_world))
  = [Recorder.mkSent EmptyString (Some [])]
  /\ session (snd (PgRepository.update Sample.users_repository
                     [("name", JS.Str "A")] Recorder.id_is_1 Recorder.empty_world))
     = [Recorder.mkSent EmptyString (Some [])].
Proof. split; reflexivity. Qed.

(** A table declared without a name is selected from as [undefined]. *)
Example unnamed_table_on_recorder :
  session
    (snd (PgRepository.findAll
            (PgRepository.mkRepository Recorder.connection
               (snd (DataSource.getRepository
                       (DataSource.initialize Recorder.client_connect Recorder.client_query
                          Recorder.client_end Sample.new_Client
                          (fst (DataSource.new
                                  (DataSource.mkOptions "default" "postgres" "localhost" 5432
                                     "root" "password" "postgres" DataSource.MixedUndefined)
                                  Sample.registry))) 2)))
            Recorder.empty_world))
  = [Recorder.mkSent ("SELECT  FROM " +:+ JS.quoted "undefined") (Some [])].
Proof. reflexivity. Qed.

(** X13 on a client that refuses to connect: nothing is recorded. *)
Lemma connect_failure_stops_the_statement_witness :
  Refusing.client_connect (client Recorder.pg) []
  = (Throw (DriverError "connect ECONNREFUSED"), [])
  /\ (forall sql ps,
        PgConnection_query Refusing.client_connect Recorder.client_query Recorder.pg sql ps []
        = (Throw (DriverError "connect ECONNREFUSED"), []))
  /\ PgTransaction_commit Refusing.client_connect Recorder.client_query
       (mkPgTransaction Recorder.pg) []
     = (Throw (DriverError "connect ECONNREFUSED"), [])
  /\ PgTransaction_rollback Refusing.client_connect Recorder.client_query
       (mkPgTransaction Recorder.pg) []
     = (Throw (DriverError "connect ECONNREFUSED"), []).
Proof.
  split; [reflexivity|].
  apply (connect_failure_stops_the_statement Refusing.client_connect Recorder.client_query
           Recorder.pg (DriverError "connect ECONNREFUSED") [] []).
  reflexivity.
Defined.

(** X15 on the sample registry: the classes asked for in two orders. *)
Lemma build_depends_on_membership_witness :
  Metadata.same_classes [1; 2] [2; 1; 1] = true
  /\ Metadata.build (fst (Metadata.getMetadataArgsStorage Sample.registry)) (Some [1; 2])
     = Metadata.build (fst (Metadata.getMetadataArgsStorage Sample.registry)) (Some [2; 1; 1])
  /\ map Metadata.target
       (Metadata.build (fst (Metadata.getMetadataArgsStorage Sample.registry)) (Some [1; 2]))
     = List.filter (fun t => existsb (Nat.eqb t) [1; 2])
         (map Metadata.target
            (Metadata.tables (fst (Metadata.getMetadataArgsStorage Sample.registry)))).
Proof.
  split; [reflexivity|].
  apply (build_depends_on_membership
           (fst (Metadata.getMetadataArgsStorage Sample.registry)) [1; 2] [2; 1; 1]).
  reflexivity.
Defined.

(** X18 on the sample registry: the repository of class 1. *)
Lemma data_source_findAll_selects_declared_columns_witness :
  DataSource.o_type Sample.options = "postgres"
  /\ DataSource.listed (DataSource.o_entities Sample.options) 1 = true
  /\ List.find (fun t => Nat.eqb (Metadata.target t) 1)
       (Metadata.tables (fst (Metadata.getMetadataArgsStorage Sample.registry)))
     = Some (Metadata.mkEntityMetadataArgs 1 (Some "comments") "regular" None)
  /\ NoDup ["id"; "content"; "postId"]
  /\ Forall (fun n => JS.array_index n = None) ["id"; "content"; "postId"]
  /\ exists e added,
       DataSource.getRepository
         (DataSource.initialize Recorder.client_connect Recorder.client_query
            Recorder.client_end Sample.new_Client
            (fst (DataSource.new Sample.options Sample.registry))) 1
       = (Some Recorder.connection, e)
       /\ PgRepository.findAll (PgRepository.mkRepository Recorder.connection e)
            Recorder.empty_world
          = (let (r, s') :=
               query Recorder.connection
                 ("SELECT " +:+ JS.join ", " (map JS.quoted ["id"; "content"; "postId"])
                  +:+ " FROM " +:+ JS.quoted "comments")
                 (Some []) [] in
             (resolve (fun rows => rows) r, mkWorld ([] ++ added) s' [])).
Proof.
  assert (NoDup ["id"; "content"; "postId"]) as Hnd
    by (apply (bool_decide_unpack _); reflexivity).
  assert (Forall (fun n => JS.array_index n = None) ["id"; "content"; "postId"]) as Hidx
    by (repeat constructor).
  do 3 (split; [reflexivity|]). split; [exact Hnd|]. split; [exact Hidx|].
  apply (data_source_findAll_selects_declared_columns
           Recorder.client_connect Recorder.client_query Recorder.client_end
           Sample.new_Client Sample.options Sample.registry 1
           (Metadata.mkEntityMetadataArgs 1 (Some "comments") "regular" None)
           Recorder.empty_world);
    [reflexivity | reflexivity | reflexivity | exact Hnd | exact Hidx].
Defined.

(** The statement of X18, as the recording driver receives it. *)
Example data_source_findAll_on_recorder :
  session
    (snd (PgRepository.findAll
            (PgRepository.mkRepository Recorder.connection
               (snd (DataSource.getRepository
                       (DataSource.initialize Recorder.client_connect Recorder.client_query
                          Recorder.client_end Sample.new_Client
                          (fst (DataSource.new Sample.options Sample.registry))) 1)))
            Recorder.empty_world))
  = [Recorder.mkSent
       ("SELECT " +:+ JS.quoted "id" +:+ ", " +:+ JS.quoted "content" +:+ ", "
        +:+ JS.quoted "postId" +:+ " FROM " +:+ JS.quoted "comments")
       (Some [])].
Proof. reflexivity. Qed.

(** X19 on the sample registry: class 2 is registered but was not asked
for. *)
Lemma data_source_unlisted_class_has_no_schema_witness :
  DataSource.o_type Sample.options = "postgres"
  /\ DataSource.listed (DataSource.o_entities Sample.options) 2 = false
  /\ DataSource.getRepository
       (DataSource.initialize Recorder.client_connect Recorder.client_query
          Recorder.client_end Sample.new_Client
          (fst (DataSource.new Sample.options Sample.registry))) 2
     = (Some Recorder.connection, mkEntity (JS.Present None) (JS.Present None) JS.Absent)
  /\ exists w',
       PgRepository.findAll
         (PgRepository.mkRepository Recorder.connection
            (snd (DataSource.getRepository
                    (DataSource.initialize Recorder.client_connect Recorder.client_query
                       Recorder.client_end Sample.new_Client
                       (fst (DataSource.new Sample.options Sample.registry))) 2)))
         Recorder.empty_world
       = (Throw (TypeError "Cannot convert undefined or null to object"), w')
       /\ session w' = session Recorder.empty_world.
Proof.
  do 2 (split; [reflexivity|]).
  apply (data_source_unlisted_class_has_no_schema
           Recorder.client_connect Recorder.client_query Recorder.client_end
           Sample.new_Client Sample.options Sample.registry 2 Recorder.empty_world);
    reflexivity.
Defined.
